(** * Active Network MCP server: request normalisation, result cache,
      search history and upstream error mapping

    Shallow embedding of
      - src/active-network-server/index.ts  (class ActiveNetworkServer)
      - src/active-network-client.ts        (class ActiveNetworkClient)

    Conventions of the embedding.
      - A JavaScript value is a term of [value].  Numbers are modelled as
        integers ([Z]): page numbers, page sizes, radii, counters and
        millisecond clocks are all integers in the program.
      - A JavaScript object is the list of its own properties in the order
        [Object.keys] / [JSON.stringify] enumerate them: canonical array
        indices first, in ascending numeric order, then every other key in
        insertion order.
      - The cache ([Map<string, ...>]) is a [gmap string CacheEntry]; the
        search history ([Array]) is a [list].
      - [new Date()] is an explicit argument of the function that reads
        the clock. *)

From Stdlib Require Import ZArith String Ascii List Bool Permutation.
From Stdlib Require Import DecimalString Sorted.
From stdpp Require Import base numbers gmap strings list fin_maps.
Import ListNotations.
Local Open Scope string_scope.
Local Open Scope list_scope.
Local Open Scope Z_scope.

(** ** JavaScript values *)

#[local] Set Warnings "-register-all".

Inductive value : Type :=
| VUndefined
| VNull
| VBool (b : bool)
| VNum (n : Z)
| VStr (s : string)
| VArr (items : list value)
| VObj (props : list (string * value)).

(** Own properties of an object, in enumeration order. *)
Abbreviation obj := (list (string * value)).

Module JS.

(** [ToBoolean]. *)
Definition truthy (v : value) : bool :=
  match v with
  | VUndefined => false
  | VNull => false
  | VBool b => b
  | VNum n => negb (n =? 0)
  | VStr s => negb (String.eqb s EmptyString)
  | VArr _ => true
  | VObj _ => true
  end.

(** [a || b]. *)
Definition or (a b : value) : value := if truthy a then a else b.

(** [typeof v === 'number']. *)
Definition is_number (v : value) : bool :=
  match v with VNum _ => true | _ => false end.

(** [v !== undefined]. *)
Definition is_defined (v : value) : bool :=
  match v with VUndefined => false | _ => true end.

(** [v !== false]. *)
Definition is_not_false (v : value) : bool :=
  match v with VBool false => false | _ => true end.

(** Decimal rendering of an integer number ([Number::toString], which
    prints integers of magnitude below 10^21 in plain decimal). *)
Definition number_to_string (n : Z) : string :=
  NilZero.string_of_int (Z.to_int n).

Definition join (sep : string) (parts : list string) : string :=
  String.concat sep parts.

(** [ToString]; an array joins its elements with a comma, rendering
    [null] and [undefined] elements as the empty string. *)
Fixpoint to_string (v : value) : string :=
  match v with
  | VUndefined => "undefined"
  | VNull => "null"
  | VBool true => "true"
  | VBool false => "false"
  | VNum n => number_to_string n
  | VStr s => s
  | VArr items =>
      join "," (List.map (fun x => match x with
                                   | VUndefined | VNull => EmptyString
                                   | _ => to_string x
                                   end) items)
  | VObj _ => "[object Object]"
  end.

(** *** Property keys and their enumeration order *)

Definition is_digit (c : ascii) : bool :=
  ((48 <=? N_of_ascii c) && (N_of_ascii c <=? 57))%N.

Fixpoint digits_value (s : string) (acc : N) : option N :=
  match s with
  | EmptyString => Some acc
  | String c s' =>
      if is_digit c
      then digits_value s' (acc * 10 + (N_of_ascii c - 48))%N
      else None
  end.

(** A canonical array index: the decimal form, without leading zero, of an
    integer below 2^32 - 1. *)
Definition array_index (k : string) : option N :=
  match k with
  | EmptyString => None
  | String c rest =>
      if Ascii.eqb c "0"%char && negb (String.eqb rest EmptyString) then None
      else match digits_value k 0%N with
           | Some n => if (n <? 4294967295)%N then Some n else None
           | None => None
           end
  end.

Fixpoint lookup {V : Type} (k : string) (o : list (string * V)) : option V :=
  match o with
  | [] => None
  | (k', v) :: o' => if String.eqb k k' then Some v else lookup k o'
  end.

(** [o.k] / [o[k]] on an own property; an absent property reads as
    [undefined]. *)
Definition get (k : string) (o : obj) : value :=
  match lookup k o with Some v => v | None => VUndefined end.

Definition has {V : Type} (k : string) (o : list (string * V)) : bool :=
  match lookup k o with Some _ => true | None => false end.

(** Overwrite of an existing property: the property keeps its place. *)
Fixpoint replace {V : Type} (k : string) (v : V) (o : list (string * V))
  : list (string * V) :=
  match o with
  | [] => []
  | (k', v') :: o' =>
      if String.eqb k k' then (k, v) :: o' else (k', v') :: replace k v o'
  end.

(** A new array-index key goes among the index keys, in numeric order. *)
Fixpoint insert_index {V : Type} (i : N) (k : string) (v : V)
    (o : list (string * V)) : list (string * V) :=
  match o with
  | [] => [(k, v)]
  | (k', v') :: o' =>
      match array_index k' with
      | Some j =>
          if (j <? i)%N then (k', v') :: insert_index i k v o'
          else (k, v) :: o
      | None => (k, v) :: o
      end
  end.

(** [o[k] = v] (CreateDataProperty / Set on an ordinary object). *)
Definition set {V : Type} (k : string) (v : V) (o : list (string * V))
  : list (string * V) :=
  if has k o then replace k v o
  else match array_index k with
       | Some i => insert_index i k v o
       | None => o ++ [(k, v)]
       end.

(** [{ ...target, ...src }]: the own properties of [src] are copied onto
    [target] in the enumeration order of [src]. *)
Definition spread (src target : obj) : obj :=
  fold_left (fun acc kv => set (fst kv) (snd kv) acc) src target.

(** *** JSON.stringify *)

Definition hex_digit (n : N) : ascii :=
  ascii_of_N (if (n <? 10)%N then 48 + n else 87 + n).

(** The double-quote character. *)
Definition dquote : ascii := ascii_of_N 34.

(** QuoteJSONString on one character. *)
Definition escape_char (c : ascii) : string :=
  let n := N_of_ascii c in
  if (n =? 34)%N then String "\"%char (String dquote EmptyString)
  else if (n =? 92)%N then "\\"
  else if (n =? 8)%N then "\b"
  else if (n =? 9)%N then "\t"
  else if (n =? 10)%N then "\n"
  else if (n =? 12)%N then "\f"
  else if (n =? 13)%N then "\r"
  else if (n <? 32)%N
       then "\u00" +:+ String (hex_digit (n / 16)) (String (hex_digit (n mod 16)) EmptyString)
  else String c EmptyString.

Fixpoint escape (s : string) : string :=
  match s with
  | EmptyString => EmptyString
  | String c s' => escape_char c +:+ escape s'
  end.

Definition quote (s : string) : string :=
  String dquote (escape s +:+ String dquote EmptyString).

Definition keep_some {A} (l : list (option A)) : list A :=
  flat_map (fun o => match o with Some a => [a] | None => [] end) l.

(** [JSON.stringify(v)] without replacer or indentation.  [None] stands
    for the result [undefined]; an [undefined] property is left out of an
    object and rendered as [null] inside an array. *)
Fixpoint stringify (v : value) : option string :=
  match v with
  | VUndefined => None
  | VNull => Some "null"
  | VBool true => Some "true"
  | VBool false => Some "false"
  | VNum n => Some (number_to_string n)
  | VStr s => Some (quote s)
  | VArr items =>
      Some ("[" +:+ join "," (List.map (fun x => match stringify x with
                                               | Some t => t
                                               | None => "null"
                                               end) items) +:+ "]")
  | VObj props =>
      Some ("{" +:+ join "," (keep_some (List.map
               (fun kv => match stringify (snd kv) with
                          | Some t => Some (quote (fst kv) +:+ ":" +:+ t)
                          | None => None
                          end) props)) +:+ "}")
  end.

(** Property read [v.k] on an arbitrary value: only objects carry the
    properties read by the server. *)
Definition member (k : string) (v : value) : value :=
  match v with VObj o => get k o | _ => VUndefined end.

(** [JSON.stringify] of an object always yields a string. *)
Definition stringify_object (o : obj) : string :=
  match stringify (VObj o) with Some t => t | None => EmptyString end.

(** [String.prototype.includes]. *)
Fixpoint includes (needle hay : string) : bool :=
  String.prefix needle hay
  || match hay with
     | EmptyString => false
     | String _ hay' => includes needle hay'
     end.

End JS.

(** ** Data model of the server (interface [SearchContext]) *)

(** [preferences]: every field is optional and [manage_preferences] may
    assign any JSON value to it, hence [value]. *)
Record Preferences : Type := {
  defaultLocation : value;
  defaultRadius : value;
  favoriteCategories : value;
  excludeChildren : value
}.

(** The preferences installed by the constructor and by [reset]. *)
Definition initial_preferences : Preferences := {|
  defaultLocation := VStr "Vancouver,BC,CA";
  defaultRadius := VNum 25;
  favoriteCategories := VArr [];
  excludeChildren := VBool true
|}.

(** An entry of [context.cache]: [{ data, timestamp, ttl }]. *)
Module CacheEntry.
Record t : Type := { data : value; timestamp : Z; ttl : Z }.
End CacheEntry.

(** An element of [context.recentSearches]:
    [{ query, timestamp, resultCount }]. *)
Module SearchRecord.
Record t : Type := { query : obj; timestamp : Z; resultCount : value }.
End SearchRecord.

Record SearchContext : Type := {
  recentSearches : list SearchRecord.t;
  preferences : Preferences;
  cache : gmap string CacheEntry.t
}.

Definition with_cache (c : gmap string CacheEntry.t) (ctx : SearchContext)
  : SearchContext :=
  {| recentSearches := recentSearches ctx;
     preferences := preferences ctx;
     cache := c |}.

(** ** class ActiveNetworkServer *)

Module Server.

(** The object literal built by the [search_activities] handler:
    [{ near: args.near || prefs.defaultLocation,
       radius: args.radius || prefs.defaultRadius,
       exclude_children: args.exclude_children !== undefined
                           ? args.exclude_children : prefs.excludeChildren,
       per_page: Math.min(typeof args.per_page === 'number'
                            ? args.per_page : 25, 50),
       current_page: typeof args.current_page === 'number'
                            ? args.current_page : 1,
       ...args }].
    [computed_defaults] is the part before the spread. *)
Definition per_page_default (args : obj) : Z :=
  Z.min (match JS.get "per_page" args with VNum n => n | _ => 25 end) 50.

Definition current_page_default (args : obj) : value :=
  if JS.is_number (JS.get "current_page" args)
  then JS.get "current_page" args else VNum 1.

Definition computed_defaults (args : obj) (prefs : Preferences) : obj :=
  [ ("near", JS.or (JS.get "near" args) (defaultLocation prefs));
    ("radius", JS.or (JS.get "radius" args) (defaultRadius prefs));
    ("exclude_children",
       if JS.is_defined (JS.get "exclude_children" args)
       then JS.get "exclude_children" args else excludeChildren prefs);
    ("per_page", VNum (per_page_default args));
    ("current_page", current_page_default args) ].

Definition searchParams (args : obj) (prefs : Preferences) : obj :=
  JS.spread args (computed_defaults args prefs).

(** [generateCacheKey(params)]: [JSON.stringify(params)]. *)
Definition generateCacheKey (params : obj) : string :=
  JS.stringify_object params.

(** [now.getTime() - entry.timestamp.getTime() > entry.ttl]. *)
Definition expired (now : Z) (entry : CacheEntry.t) : bool :=
  CacheEntry.ttl entry <? now - CacheEntry.timestamp entry.

(** [getCachedResult(key)]; [now] is the reading of [new Date()].  The
    result is the payload, or [null] on a miss, with the cache after the
    call. *)
Definition getCachedResult (now : Z) (key : string)
    (c : gmap string CacheEntry.t) : value * gmap string CacheEntry.t :=
  match c !! key with
  | None => (VNull, c)
  | Some entry =>
      if expired now entry then (VNull, delete key c)
      else (CacheEntry.data entry, c)
  end.

(** [cleanupExpiredCache()]: collect the keys of the expired entries, then
    delete each of them. *)
Definition cleanupExpiredCache (now : Z) (c : gmap string CacheEntry.t)
  : gmap string CacheEntry.t :=
  let toDelete :=
    List.map fst
      (List.filter (fun kv => expired now (snd kv)) (map_to_list c)) in
  foldr delete c toDelete.

(** The default value of the parameter [ttl]: 5 minutes, in ms. *)
Definition default_ttl : Z := 300000.

(** [setCachedResult(key, data, ttl = 300000)]; [now] is the clock read
    for the entry's timestamp, [sweep_now] the one read by
    [cleanupExpiredCache] when it runs. *)
Definition setCachedResult (now sweep_now : Z) (key : string) (data : value)
    (ttl : option Z) (c : gmap string CacheEntry.t)
  : gmap string CacheEntry.t :=
  let entry := {| CacheEntry.data := data;
                  CacheEntry.timestamp := now;
                  CacheEntry.ttl := match ttl with
                                    | Some t => t
                                    | None => default_ttl
                                    end |} in
  let c' := <[key := entry]> c in
  if (100 <? Z.of_nat (size c'))%Z then cleanupExpiredCache sweep_now c'
  else c'.

(** [Array.prototype.slice(-n)] for a positive [n]: the last [n]
    elements, the whole array when it is shorter. *)
Definition slice_last {A} (n : nat) (l : list A) : list A :=
  skipn (length l - n) l.

(** [addToSearchHistory(query, resultCount)]. *)
Definition addToSearchHistory (now : Z) (query : obj) (resultCount : value)
    (h : list SearchRecord.t) : list SearchRecord.t :=
  let h' := h ++ [ {| SearchRecord.query := JS.spread query [];
                      SearchRecord.timestamp := now;
                      SearchRecord.resultCount := resultCount |} ] in
  if (100 <? length h')%nat then slice_last 100 h' else h'.

End Server.

(** ** The [search_activities] tool handler *)

(** Outcome of [await this.client.searchActivities(searchParams)]: the
    promise resolves with the upstream payload or rejects with an error,
    whose rendering by a template literal is [error]. *)
Inductive upstream_result : Type :=
| Resolved (result : value)
| Rejected (error : string).

(** The readings of [new Date()] taken by one handler run, in program
    order: by [getCachedResult], by [setCachedResult], by
    [cleanupExpiredCache] and by [addToSearchHistory]. *)
Record Clock : Type := {
  t_lookup : Z;
  t_store : Z;
  t_sweep : Z;
  t_history : Z
}.

(** What the handler returns or throws.  The JSON text of the answer
    (pretty printing, ISO time stamps) is not modelled: a response is
    the object that is serialised. *)
Inductive response : Type :=
| CachedResponse (cached : value)                 (* ..., _cached: true *)
| SearchResponse (result : value) (params : obj)  (* ..., _searchParams *)
| SearchFailed (message : string).                (* throw McpError *)

Module Handler.
Import Server.

Definition search_activities (clock : Clock)
    (upstream : obj -> upstream_result) (args : obj) (ctx : SearchContext)
  : response * SearchContext :=
  let params := searchParams args (preferences ctx) in
  let useCache := JS.is_not_false (JS.get "use_cache" args) in
  let cacheKey := generateCacheKey params in
  let '(cached, c1) :=
    if useCache then getCachedResult (t_lookup clock) cacheKey (cache ctx)
    else (VNull, cache ctx) in
  if useCache && JS.truthy cached
  then (CachedResponse cached, with_cache c1 ctx)
  else
    match upstream params with
    | Resolved result =>
        let c2 :=
          if useCache
          then setCachedResult (t_store clock) (t_sweep clock)
                 cacheKey result None c1
          else c1 in
        let h :=
          addToSearchHistory (t_history clock) params
            (JS.or (JS.member "total_results" result) (VNum 0))
            (recentSearches ctx) in
        (SearchResponse result params,
         {| recentSearches := h;
            preferences := preferences ctx;
            cache := c2 |})
    | Rejected error =>
        (SearchFailed ("Search failed: " +:+ error), with_cache c1 ctx)
    end.

End Handler.

(** ** Search analytics ([calculateSearchAnalytics]) *)

Module Analytics.

(** Names every object literal inherits from [Object.prototype].  Reading
    [acc[name]] on the counter object finds the inherited member instead
    of [undefined]; the count that results is not a number, and the model
    answers [None] there. *)
Definition inherited_names : list string :=
  [ "constructor"; "__defineGetter__"; "__defineSetter__"; "hasOwnProperty";
    "__lookupGetter__"; "__lookupSetter__"; "isPrototypeOf";
    "propertyIsEnumerable"; "toString"; "valueOf"; "__proto__";
    "toLocaleString" ].

Definition inherited (k : string) : bool :=
  existsb (String.eqb k) inherited_names.

(** One step of the reducer: [acc[key] = (acc[key] || 0) + 1]. *)
Definition bump (key : value) (acc : list (string * Z))
  : option (list (string * Z)) :=
  let k := JS.to_string key in
  match JS.lookup k acc with
  | Some n => Some (JS.set k ((if n =? 0 then 0 else n) + 1) acc)
  | None => if inherited k then None else Some (JS.set k (0 + 1) acc)
  end.

(** [searches.reduce((acc, search) => { ... }, {})], for the key that
    [key_of] extracts from a record. *)
Definition frequencies (key_of : SearchRecord.t -> value)
    (searches : list SearchRecord.t) : option (list (string * Z)) :=
  fold_left (fun acc search =>
               match acc with
               | Some a => bump (key_of search) a
               | None => None
               end) searches (Some []).

(** [search.query.category || 'unknown']. *)
Definition category_of (search : SearchRecord.t) : value :=
  JS.or (JS.get "category" (SearchRecord.query search)) (VStr "unknown").

(** [search.query.near || this.context.preferences.defaultLocation
     || 'unknown']. *)
Definition location_of (prefs : Preferences) (search : SearchRecord.t)
  : value :=
  JS.or (JS.or (JS.get "near" (SearchRecord.query search))
               (defaultLocation prefs))
        (VStr "unknown").

(** [entries.sort(([,a], [,b]) => b - a)]: [Array.prototype.sort] is
    stable, so the result is the one of a stable insertion sort by
    descending count. *)
Fixpoint insert_desc (x : string * Z) (l : list (string * Z))
  : list (string * Z) :=
  match l with
  | [] => [x]
  | y :: l' => if snd x <? snd y then y :: insert_desc x l' else x :: l
  end.

Definition sort_desc (l : list (string * Z)) : list (string * Z) :=
  foldr insert_desc [] l.

(** [Object.entries(freq).sort(...).slice(0, 5)]. *)
Definition top5 (freq : list (string * Z)) : list (string * Z) :=
  firstn 5 (sort_desc freq).

Definition day_ms : Z := 24 * 60 * 60 * 1000.

(** The object returned by [calculateSearchAnalytics()], but for
    [averageResultsPerSearch], a floating-point quotient. *)
Record t : Type := {
  totalSearches : nat;
  searchesLast24h : nat;
  searchesLast7d : nat;
  topCategories : list (string * Z);
  topLocations : list (string * Z)
}.

Definition calculateSearchAnalytics (now : Z) (ctx : SearchContext)
  : option t :=
  let searches := recentSearches ctx in
  let last24h :=
    List.filter (fun s => now - SearchRecord.timestamp s <? day_ms) searches in
  let last7d :=
    List.filter (fun s => now - SearchRecord.timestamp s <? 7 * day_ms)
      searches in
  match frequencies category_of searches,
        frequencies (location_of (preferences ctx)) searches with
  | Some categoryFreq, Some locationFreq =>
      Some {| totalSearches := length searches;
              searchesLast24h := length last24h;
              searchesLast7d := length last7d;
              topCategories := top5 categoryFreq;
              topLocations := top5 locationFreq |}
  | _, _ => None
  end.

End Analytics.

(** ** class ActiveNetworkClient *)

Inductive ErrorCode : Type := InvalidRequest | InvalidParams | InternalError.

(** [new McpError(code, message)]. *)
Record McpError : Type := { code : ErrorCode; message : string }.

Module Client.

(** [Math.min(params.per_page || 25, 50)].  [SearchParams] declares
    [per_page] a number; on an operand of another type [Math.min]
    converts it (string parsing, NaN), which the model leaves out:
    [None]. *)
Definition query_per_page (params : obj) : option Z :=
  match JS.or (JS.get "per_page" params) (VNum 25) with
  | VNum n => Some (Z.min n 50)
  | _ => None
  end.

(** [params.current_page || 1]. *)
Definition query_current_page (params : obj) : value :=
  JS.or (JS.get "current_page" params) (VNum 1).

(** What the [catch] blocks read of an Axios error:
    [error.response?.status], [error.response?.data?.message] (the
    upstream message text, when the response has one) and
    [error.message]. *)
Record AxiosError : Type := {
  status : option Z;
  data_message : option string;
  error_message : string
}.

(** [error.response?.data?.message || error.message]. *)
Definition upstream_message (e : AxiosError) : string :=
  match data_message e with
  | Some m => if String.eqb m EmptyString then error_message e else m
  | None => error_message e
  end.

(** [`${status}`]. *)
Definition status_text (s : option Z) : string :=
  match s with Some n => JS.number_to_string n | None => "undefined" end.

(** [status === n], the test a [case n:] of [switch (status)] makes. *)
Definition status_is (s : option Z) (n : Z) : bool :=
  match s with Some z => z =? n | None => false end.

(** The [catch] block of [searchActivities], on an Axios error. *)
Definition searchActivities_error (e : AxiosError) : McpError :=
  let msg := upstream_message e in
  if status_is (status e) 400
  then {| code := InvalidParams; message := "Bad request: " +:+ msg |}
  else if status_is (status e) 403
  then
    if JS.includes "Over Rate Limit" msg
    then {| code := InvalidRequest;
            message := "API rate limit exceeded. Please try again later." |}
    else if JS.includes "Not Authorized" msg
    then {| code := InvalidParams;
            message := "Invalid API key or unauthorized access." |}
    else {| code := InvalidRequest; message := "Access denied: " +:+ msg |}
  else if status_is (status e) 414
  then {| code := InvalidParams;
          message :=
            "Request URI too long. Please reduce the number of parameters." |}
  else if status_is (status e) 502 || status_is (status e) 503
          || status_is (status e) 504
  then {| code := InternalError;
          message := "Active Network API is temporarily unavailable. Please try again later." |}
  else {| code := InternalError;
          message := "Active Network API error ("
                       +:+ status_text (status e) +:+ "): " +:+ msg |}.

(** The [catch] block of [getActivityDetails], on an Axios error. *)
Definition getActivityDetails_error (e : AxiosError) : McpError :=
  let msg := upstream_message e in
  if status_is (status e) 404
  then {| code := InvalidRequest; message := "Activity not found" |}
  else {| code := InternalError;
          message := "Failed to get activity details: " +:+ msg |}.

End Client.


(** ** Vocabulary of the statements *)

Section Vocabulary.
Import Server.

(** The record pushed by [addToSearchHistory]. *)
Definition pushed (now : Z) (query : obj) (resultCount : value)
  : SearchRecord.t :=
  {| SearchRecord.query := JS.spread query [];
     SearchRecord.timestamp := now;
     SearchRecord.resultCount := resultCount |}.

(** A run of [record] operations: one call of [addToSearchHistory] per
    element [(now, query, resultCount)], in order. *)
Definition record_all (calls : list (Z * obj * value))
    (h : list SearchRecord.t) : list SearchRecord.t :=
  fold_left (fun h call =>
               addToSearchHistory call.1.1 call.1.2 call.2 h) calls h.

Definition pushed_of (call : Z * obj * value) : SearchRecord.t :=
  pushed call.1.1 call.1.2 call.2.

Definition calls_150 : list (Z * obj * value) :=
  List.map (fun i => (Z.of_nat i, [("query", VStr "yoga")], VNum 2))
           (seq 0 150).

(** Concrete data shared by the examples below. *)
Definition yoga_args : obj := [("query", VStr "yoga")].

Definition yoga_key : string :=
  generateCacheKey (searchParams yoga_args initial_preferences).

Definition yoga_payload : value :=
  VObj [("total_results", VNum 2); ("results", VArr [VStr "A"; VStr "B"])].

Definition one_entry_context (stored_at : Z) : SearchContext :=
  {| recentSearches := [];
     preferences := initial_preferences;
     cache := {[ yoga_key := {| CacheEntry.data := yoga_payload;
                                CacheEntry.timestamp := stored_at;
                                CacheEntry.ttl := default_ttl |} ]} |}.

Definition clock_at (t : Z) : Clock :=
  {| t_lookup := t; t_store := t; t_sweep := t; t_history := t |}.

Definition uncached_args : obj :=
  [("query", VStr "yoga"); ("use_cache", VBool false)].

Definition uncached_context : SearchContext :=
  {| recentSearches := [];
     preferences := initial_preferences;
     cache := {[ generateCacheKey
                   (searchParams uncached_args initial_preferences) :=
                 {| CacheEntry.data := VStr "cached";
                    CacheEntry.timestamp := 0;
                    CacheEntry.ttl := default_ttl |} ]} |}.

Definition empty_context : SearchContext :=
  {| recentSearches := []; preferences := initial_preferences; cache := ∅ |}.

Definition upstream_ok : obj -> upstream_result :=
  fun _ => Resolved yoga_payload.

Definition upstream_down : obj -> upstream_result :=
  fun _ => Rejected "Error: timeout".

(** A cache of 100 entries stored at time 0 under the keys "0" ... "99":
    the even ones live 10 ms, the odd ones 1000 s. *)
Definition stored_entry (i : nat) : CacheEntry.t :=
  {| CacheEntry.data := VNum (Z.of_nat i);
     CacheEntry.timestamp := 0;
     CacheEntry.ttl := if Nat.even i then 10 else 1000000 |}.

Definition full_cache : gmap string CacheEntry.t :=
  list_to_map
    (List.map (fun i => (JS.number_to_string (Z.of_nat i), stored_entry i))
              (seq 0 100)).

(** The entry stored for [yoga_payload] at time 500 with the default
    ttl. *)
Definition new_entry : CacheEntry.t :=
  {| CacheEntry.data := yoga_payload;
     CacheEntry.timestamp := 500;
     CacheEntry.ttl := 300000 |}.

(** The fields the handler computes before it spreads the caller's. *)
Definition computed_fields : list string :=
  ["near"; "radius"; "exclude_children"; "per_page"; "current_page"].

Definition is_computed (k : string) : bool :=
  existsb (String.eqb k) computed_fields.

Definition austin_preferences : Preferences :=
  {| defaultLocation := VStr "Austin,TX,US";
     defaultRadius := VNum 10;
     favoriteCategories := VArr [];
     excludeChildren := VBool true |}.

(** Two caller records with the same fields: only the place of
    [per_page] differs. *)
Definition paged_args_1 : obj :=
  [("query", VStr "yoga"); ("per_page", VNum 10); ("category", VStr "event")].

Definition paged_args_2 : obj :=
  [("per_page", VNum 10); ("query", VStr "yoga"); ("category", VStr "event")].

(** Two caller records with the same fields: [query] and [category]
    swapped. *)
Definition swapped_args_1 : obj :=
  [("query", VStr "yoga"); ("category", VStr "event")].

Definition swapped_args_2 : obj :=
  [("category", VStr "event"); ("query", VStr "yoga")].

(** Upstream failures used in the examples. *)
Definition uri_too_long : Client.AxiosError :=
  {| Client.status := Some 414;
     Client.data_message := Some "URI Too Long";
     Client.error_message := "Request failed with status code 414" |}.

Definition forbidden_both : Client.AxiosError :=
  {| Client.status := Some 403;
     Client.data_message := Some "Not Authorized: Over Rate Limit";
     Client.error_message := "Request failed with status code 403" |}.

Definition bad_request : Client.AxiosError :=
  {| Client.status := Some 400;
     Client.data_message := Some "Invalid radius";
     Client.error_message := "Request failed with status code 400" |}.

(** *** The reading of "top categories" in words

    Frequency counts of the names, the names in the order in which they
    are first seen. *)

Definition mem (k : string) (l : list string) : bool :=
  existsb (String.eqb k) l.






(** *** The enumeration order of the counter object in words

    Canonical array indices first, in ascending numeric order, then the
    other names in the order in which they are first seen. *)









Definition history_context (h : list SearchRecord.t) : SearchContext :=
  {| recentSearches := h; preferences := initial_preferences; cache := ∅ |}.

End Vocabulary.


(** * The rest of the server and of the client *)

(** ** Cache statistics and cache management *)

Module CacheAdmin.
Import Server.

(** The counters of [getCacheStats()]: [totalEntries], [validEntries],
    [expiredEntries].  ([cacheHitRate], a floating-point placeholder, and
    [memoryUsage], a sum of UTF-16 lengths, are left out.) *)
Record CacheStats : Type := {
  totalEntries : nat;
  validEntries : nat;
  expiredEntries : nat
}.

(** One round of the [cache.forEach] callback on the pair
    [(valid, expired)]. *)
Definition count_entry (now : Z) (counts : nat * nat)
    (kv : string * CacheEntry.t) : nat * nat :=
  if expired now kv.2 then (counts.1, S counts.2) else (S counts.1, counts.2).

Definition getCacheStats (now : Z) (c : gmap string CacheEntry.t)
  : CacheStats :=
  let counts := fold_left (count_entry now) (map_to_list c) (0%nat, 0%nat) in
  {| totalEntries := size c;
     validEntries := counts.1;
     expiredEntries := counts.2 |}.

(** The [clear_cache] tool: [cache.delete(cacheKey)] when
    [arguments.cache_key] is truthy, [cache.clear()] otherwise.  The keys
    of the map are strings, so deleting a key that is not a string removes
    nothing.  The result is the message of the answer and the cache. *)
Definition clear_cache (args : obj) (c : gmap string CacheEntry.t)
  : string * gmap string CacheEntry.t :=
  let cacheKey := JS.get "cache_key" args in
  if JS.truthy cacheKey
  then ("Cache entry '" +:+ JS.to_string cacheKey +:+ "' cleared",
        match cacheKey with
        | VStr key => delete key c
        | _ => c
        end)
  else ("All cache entries cleared", ∅).

(** An entry that is not expired at [now]. *)
Definition fresh_at (now : Z) (kv : string * CacheEntry.t) : Prop :=
  expired now kv.2 = false.

#[global] Instance fresh_at_dec (now : Z) (kv : string * CacheEntry.t)
  : Decision (fresh_at now kv) :=
  bool_eq_dec (expired now kv.2) false.

End CacheAdmin.

(** ** The [get_search_history] tool *)

Module HistoryAnswer.
(** The [analytics] member: [null] when analytics are switched off. *)
Inductive analytics_field : Type :=
| AnalyticsNull
| AnalyticsOf (a : option Analytics.t).

(** The object the tool serialises (but for [_timestamp]). *)
Record t : Type := {
  recentSearches : list SearchRecord.t;
  analytics : analytics_field;
  _limit : Z
}.
End HistoryAnswer.

Module HistoryTool.

(** [Array.prototype.slice(start)] for an integer [start]: a negative
    [start] counts from the end, and both ends are clamped. *)
Definition slice {A : Type} (start : Z) (l : list A) : list A :=
  let len := Z.of_nat (length l) in
  let k := if start <? 0 then Z.max (len + start) 0 else Z.min start len in
  skipn (Z.to_nat k) l.

(** [Math.min(typeof args.limit === 'number' ? args.limit : 10, 50)]. *)
Definition limit_of (args : obj) : Z :=
  Z.min (match JS.get "limit" args with VNum n => n | _ => 10 end) 50.

Definition get_search_history (now : Z) (args : obj) (ctx : SearchContext)
  : HistoryAnswer.t :=
  let limit := limit_of args in
  let includeAnalytics := JS.is_not_false (JS.get "include_analytics" args) in
  {| HistoryAnswer.recentSearches := slice (- limit) (recentSearches ctx);
     HistoryAnswer.analytics :=
       if includeAnalytics
       then HistoryAnswer.AnalyticsOf
              (Analytics.calculateSearchAnalytics now ctx)
       else HistoryAnswer.AnalyticsNull;
     HistoryAnswer._limit := limit |}.

End HistoryTool.

(** ** The [manage_preferences] tool *)

Module PreferenceTool.

(** The preferences object, with its four declared members. *)
Definition to_object (p : Preferences) : obj :=
  [ ("defaultLocation", defaultLocation p);
    ("defaultRadius", defaultRadius p);
    ("favoriteCategories", favoriteCategories p);
    ("excludeChildren", excludeChildren p) ].

Definition of_object (o : obj) : Preferences :=
  {| defaultLocation := JS.get "defaultLocation" o;
     defaultRadius := JS.get "defaultRadius" o;
     favoriteCategories := JS.get "favoriteCategories" o;
     excludeChildren := JS.get "excludeChildren" o |}.

(** [Object.assign(this.context.preferences, newPrefs)], as seen on the
    declared members (members of other names are stored by the program
    but are not part of [Preferences]).  A source that is not an object
    has no member of a declared name. *)
Definition assign (newPrefs : value) (p : Preferences) : Preferences :=
  match newPrefs with
  | VObj src => of_object (JS.spread src (to_object p))
  | _ => p
  end.

Definition with_preferences (p : Preferences) (ctx : SearchContext)
  : SearchContext :=
  {| recentSearches := recentSearches ctx;
     preferences := p;
     cache := cache ctx |}.

(** What the tool answers with: the preferences shown, or the error
    thrown. *)
Inductive outcome : Type :=
| Shown (p : Preferences)              (* action 'get' *)
| Updated (p : Preferences)            (* 'Preferences updated successfully' *)
| WasReset (p : Preferences)           (* 'Preferences reset to defaults' *)
| Failed (e : McpError).

Definition is_action (action : value) (name : string) : bool :=
  match action with VStr s => String.eqb s name | _ => false end.

Definition manage_preferences (args : obj) (ctx : SearchContext)
  : outcome * SearchContext :=
  let action := JS.get "action" args in
  if negb (JS.truthy action)
  then (Failed {| code := InvalidParams; message := "Action is required" |},
        ctx)
  else if is_action action "get"
  then (Shown (preferences ctx), ctx)
  else if is_action action "set"
  then
    let newPrefs := JS.get "preferences" args in
    let p := if JS.truthy newPrefs then assign newPrefs (preferences ctx)
             else preferences ctx in
    (Updated p, with_preferences p ctx)
  else if is_action action "reset"
  then (WasReset initial_preferences,
        with_preferences initial_preferences ctx)
  else (Failed {| code := InvalidParams;
                  message := "Unknown action: " +:+ JS.to_string action |},
        ctx).

End PreferenceTool.

Section MoreVocabulary.

(** The texts of the members of an object, as [JSON.stringify] joins
    them. *)
Definition member_text (kv : string * value) : option string :=
  match JS.stringify kv.2 with
  | Some t => Some (JS.quote kv.1 +:+ ":" +:+ t)
  | None => None
  end.

(** An object whose names are pairwise distinct and none of which is a
    canonical array index. *)
Definition plain_object (o : obj) : Prop :=
  NoDup (List.map fst o)
  /\ Forall (fun k => JS.array_index k = None) (List.map fst o).

Definition member_texts (o : obj) : list string :=
  JS.keep_some (List.map member_text o).

(** A history of 60 records. *)
Definition history_60 : list SearchRecord.t :=
  List.map (fun i => pushed (Z.of_nat i) [("query", VStr "yoga")] (VNum 2))
           (seq 0 60).

Definition portland_preferences : value :=
  VObj [("defaultLocation", VStr "Portland,OR,US"); ("defaultRadius", VNum 5)].

End MoreVocabulary.

(** ** The query built by [searchActivities] *)

Module ClientQuery.

(** The conditional assignments of [searchActivities], one constructor
    per shape of statement. *)
Inductive step : Type :=
| Location
    (* if (params.lat_lon) queryParams.lat_lon = params.lat_lon;
       else if (params.near) ...; else if (params.bbox) ...;
       else if (params.geo_points) ... *)
| IfDefined (k : string)
    (* if (params.k !== undefined) queryParams.k = params.k; *)
| IfTruthy (k : string)
    (* if (params.k) queryParams.k = params.k; *)
| Flag (k : string).
    (* if (params.k === true) queryParams.k = 'true'; *)

(** The statements of the function, in program order. *)
Definition steps : list step :=
  [ Location;
    IfDefined "radius"; IfTruthy "city"; IfTruthy "state"; IfTruthy "zip";
    IfTruthy "country";
    IfTruthy "query"; IfTruthy "category"; IfTruthy "category_name";
    IfTruthy "topic"; IfTruthy "topic_name";
    IfTruthy "start_date"; IfTruthy "end_date";
    Flag "kids"; Flag "registerable_only"; IfTruthy "meta_interest";
    IfTruthy "meta_interest_name";
    IfTruthy "attributes"; IfTruthy "tags"; IfTruthy "exists";
    IfTruthy "not_exists";
    IfTruthy "sort"; Flag "show_distance";
    IfTruthy "facets"; IfTruthy "facet_values";
    IfTruthy "asset_name"; IfTruthy "org_id"; IfTruthy "place_id";
    IfTruthy "source_system_id"; IfTruthy "source_system_name";
    IfTruthy "fields"; Flag "show_suggest"; Flag "search_again";
    IfTruthy "cb" ].

Definition copy (k : string) (params : obj) : option (string * value) :=
  Some (k, JS.get k params).

(** The assignment a statement performs on [params], if any. *)
Definition effect (params : obj) (s : step) : option (string * value) :=
  match s with
  | Location =>
      if JS.truthy (JS.get "lat_lon" params) then copy "lat_lon" params
      else if JS.truthy (JS.get "near" params) then copy "near" params
      else if JS.truthy (JS.get "bbox" params) then copy "bbox" params
      else if JS.truthy (JS.get "geo_points" params)
      then copy "geo_points" params
      else None
  | IfDefined k =>
      if JS.is_defined (JS.get k params) then copy k params else None
  | IfTruthy k =>
      if JS.truthy (JS.get k params) then copy k params else None
  | Flag k =>
      match JS.get k params with
      | VBool true => Some (k, VStr "true")
      | _ => None
      end
  end.

(** The object literal [queryParams] starts from, given the page size
    that [Math.min(params.per_page || 25, 50)] evaluates to. *)
Definition initial (apiKey : string) (per_page : Z) (params : obj) : obj :=
  [ ("api_key", VStr apiKey);
    ("exclude_children",
       VBool (JS.is_not_false (JS.get "exclude_children" params)));
    ("per_page", VNum per_page);
    ("current_page", Client.query_current_page params) ].

(** [queryParams] as it is passed to [client.get('/search', ...)];
    [None] where [Client.query_per_page] is. *)
Definition queryParams (apiKey : string) (params : obj) : option obj :=
  match Client.query_per_page params with
  | Some n =>
      Some (JS.spread (JS.keep_some (List.map (effect params) steps))
                      (initial apiKey n params))
  | None => None
  end.

(** The names a statement can assign. *)
Definition targets (s : step) : list string :=
  match s with
  | Location => ["lat_lon"; "near"; "bbox"; "geo_points"]
  | IfDefined k | IfTruthy k | Flag k => [k]
  end.

(** The arguments of the search that the [get_topics] tool runs. *)
Definition get_topics_params (category : value) : obj :=
  [("facets", VStr "topicName"); ("per_page", VNum 0); ("category", category)].

End ClientQuery.

(** ** The answer of [searchActivities] *)

Module ClientResponse.

(** How the call settles once the HTTP request succeeded. *)
Inductive settled : Type :=
| Returns (data : value)
| Throws (e : McpError).

(** The envelope built around a bare list. *)
Definition envelope (per_page start_index : Z) (items : list value) : value :=
  VObj [ ("total_results", VNum (Z.of_nat (length items)));
         ("items_per_page", VNum per_page);
         ("start_index", VNum start_index);
         ("results", VArr items);
         ("facets", VObj []);
         ("suggestions", VArr []) ].

(** The part of [searchActivities] after [await this.client.get(...)]:
    [data] is [response.data], [per_page] and [current_page] are the
    members of [queryParams].  A falsy body throws (the [catch] block
    rethrows what is not an Axios error); a bare array is wrapped; any
    other body is returned as it is.  [(current_page - 1) * per_page] is
    computed on a number; on a [current_page] of another type the
    subtraction converts it, which the model leaves out: [None]. *)
Definition settle (per_page : Z) (current_page : value) (data : value)
  : option settled :=
  if negb (JS.truthy data)
  then Some (Throws {| code := InvalidRequest;
                       message := "Empty response from Active Network API" |})
  else
    match data with
    | VArr items =>
        match current_page with
        | VNum page =>
            Some (Returns (envelope per_page ((page - 1) * per_page) items))
        | _ => None
        end
    | _ => Some (Returns data)
    end.

End ClientResponse.

(** ** The rate limiter of the client *)

Module RateLimit.

Definition rateLimitDelay : Z := 500.

(** The delay [enforceRateLimit] asks [setTimeout] for, 0 when it does
    not wait; [now] is the reading of [Date.now()] on entry. *)
Definition waitTime (now lastRequest : Z) : Z :=
  let timeSinceLastRequest := now - lastRequest in
  if timeSinceLastRequest <? rateLimitDelay
  then rateLimitDelay - timeSinceLastRequest
  else 0.

(** The fields [lastRequest] and [requestCount] of the client. *)
Record state : Type := { lastRequest : Z; requestCount : Z }.

(** One request passing the interceptor: [enforceRateLimit] reads the
    clock at [arrived], waits, then stores the reading [dispatched] of
    [Date.now()] in [lastRequest]; the interceptor then counts the
    request. *)
Definition dispatch (st : state) (request : Z * Z) : state :=
  {| lastRequest := request.2; requestCount := requestCount st + 1 |}.

(** The timer does not fire early: the request is dispatched when the
    delay has elapsed. *)
Definition waited (st : state) (request : Z * Z) : Prop :=
  request.1 + waitTime request.1 (lastRequest st) <= request.2.

(** Requests passing the interceptor one after the other. *)
Fixpoint run (st : state) (requests : list (Z * Z)) : state :=
  match requests with
  | [] => st
  | r :: rs => run (dispatch st r) rs
  end.

(** Every request of the run waited for its delay. *)
Fixpoint all_waited (st : state) (requests : list (Z * Z)) : Prop :=
  match requests with
  | [] => True
  | r :: rs => waited st r /\ all_waited (dispatch st r) rs
  end.

(** Consecutive instants at least [rateLimitDelay] apart. *)
Fixpoint spaced (previous : Z) (instants : list Z) : Prop :=
  match instants with
  | [] => True
  | t :: ts => rateLimitDelay <= t - previous /\ spaced t ts
  end.

End RateLimit.

(** ** [formatUptime] *)

Module Uptime.

(** [Math.floor(x / d)] on integers. *)
Definition floor_div (x d : Z) : Z := x / d.

(** [`${n}`]. *)
Definition show (n : Z) : string := JS.number_to_string n.

Definition formatUptime (uptimeMs : Z) : string :=
  let seconds := floor_div uptimeMs 1000 in
  let minutes := floor_div seconds 60 in
  let hours := floor_div minutes 60 in
  let days := floor_div hours 24 in
  if 0 <? days
  then show days +:+ "d " +:+ show (Z.rem hours 24) +:+ "h "
         +:+ show (Z.rem minutes 60) +:+ "m"
  else if 0 <? hours
  then show hours +:+ "h " +:+ show (Z.rem minutes 60) +:+ "m "
         +:+ show (Z.rem seconds 60) +:+ "s"
  else if 0 <? minutes
  then show minutes +:+ "m " +:+ show (Z.rem seconds 60) +:+ "s"
  else show seconds +:+ "s".

End Uptime.
(** * Properties *)

(** A literal list of keys has no duplicate: decided by computation. *)
Ltac solve_NoDup_keys :=
  apply (bool_decide_unpack _); vm_compute; reflexivity.

(** ** Result cache *)

Section CacheFacts.
Import Server.
Implicit Types (c : gmap string CacheEntry.t) (k key : string) (now : Z).

Lemma expired_spec now (e : CacheEntry.t) :
  expired now e = true <-> now - CacheEntry.timestamp e > CacheEntry.ttl e.
Proof. unfold expired. rewrite Z.ltb_lt. lia. Qed.

Lemma fresh_spec now (e : CacheEntry.t) :
  expired now e = false <-> now - CacheEntry.timestamp e <= CacheEntry.ttl e.
Proof. unfold expired. rewrite Z.ltb_ge. lia. Qed.

(** The sweep keeps exactly the entries that are not expired. *)
Lemma lookup_cleanupExpiredCache now c k :
  cleanupExpiredCache now c !! k =
  match c !! k with
  | Some e => if expired now e then None else Some e
  | None => None
  end.
Proof.
  unfold cleanupExpiredCache.
  set (js := List.map fst _).
  assert (Hjs : forall j, j ∈ js <->
                  exists e, c !! j = Some e /\ expired now e = true).
  { intros j. subst js. rewrite list_elem_of_In, in_map_iff. split.
    - intros [[j' e] [<- Hin]]. apply filter_In in Hin as [Hin Hexp].
      apply list_elem_of_In, elem_of_map_to_list in Hin. eauto.
    - intros [e [Hl He]]. exists (j, e). split; [done|].
      apply filter_In. split; [|done].
      by apply list_elem_of_In, elem_of_map_to_list. }
  destruct (decide (k ∈ js)) as [Hin|Hnin].
  - rewrite lookup_foldr_delete by done.
    apply Hjs in Hin as [e [-> ->]]. done.
  - rewrite lookup_foldr_delete_not_elem_of by done.
    destruct (c !! k) as [e|] eqn:Hk; [|done].
    destruct (expired now e) eqn:He; [|done].
    exfalso. apply Hnin, Hjs. eauto.
Qed.

Lemma lookup_setCachedResult now sweep key data ttl c k e :
  setCachedResult now sweep key data ttl c !! k = Some e <->
  <[key := {| CacheEntry.data := data;
              CacheEntry.timestamp := now;
              CacheEntry.ttl := match ttl with
                                | Some t => t
                                | None => default_ttl
                                end |}]> c !! k = Some e
  /\ (100 < Z.of_nat (size (<[key := {| CacheEntry.data := data;
                                        CacheEntry.timestamp := now;
                                        CacheEntry.ttl :=
                                          match ttl with
                                          | Some t => t
                                          | None => default_ttl
                                          end |}]> c))
      -> expired sweep e = false).
Proof.
  unfold setCachedResult.
  set (c' := <[key := _]> c).
  destruct (100 <? Z.of_nat (size c')) eqn:Hsz.
  - apply Z.ltb_lt in Hsz. rewrite lookup_cleanupExpiredCache.
    destruct (c' !! k) as [e'|]; [|split; [done|by intros [? _]]].
    destruct (expired sweep e') eqn:He; split.
    + done.
    + intros [[= ->] Hf]. specialize (Hf Hsz). congruence.
    + intros [= ->]. done.
    + intros [? _]. done.
  - apply Z.ltb_ge in Hsz. split.
    + intros Hk. split; [exact Hk|lia].
    + intros [Hk _]. exact Hk.
Qed.

Lemma getCachedResult_hit now key c e :
  c !! key = Some e -> expired now e = false ->
  getCachedResult now key c = (CacheEntry.data e, c).
Proof. intros Hk He. unfold getCachedResult. by rewrite Hk, He. Qed.

Lemma getCachedResult_expired now key c e :
  c !! key = Some e -> expired now e = true ->
  getCachedResult now key c = (VNull, delete key c).
Proof. intros Hk He. unfold getCachedResult. by rewrite Hk, He. Qed.

Lemma getCachedResult_absent now key c :
  c !! key = None -> getCachedResult now key c = (VNull, c).
Proof. intros Hk. unfold getCachedResult. by rewrite Hk. Qed.

End CacheFacts.

(** C3.  Cache freshness.  After [setCachedResult] stored [v] under [k]
    with time-to-live [T] at time [storedAt] (the clock does not run
    backwards between the store, its sweep and the lookup), a
    [getCachedResult] at a time [now] with [now - storedAt <= T] returns
    [v] and leaves the cache as it is; with [now - storedAt > T] it
    returns the miss value [null] and the entry is gone afterwards.  In
    any cache, a lookup that finds an expired entry deletes it and answers
    [null]: an expired entry is never returned. *)
Theorem cache_freshness (c : gmap string CacheEntry.t) (k : string)
    (v : value) (T storedAt tsweep now : Z) :
  storedAt <= tsweep -> tsweep <= now ->
  (now - storedAt <= T ->
     Server.getCachedResult now k
       (Server.setCachedResult storedAt tsweep k v (Some T) c)
     = (v, Server.setCachedResult storedAt tsweep k v (Some T) c))
  /\ (now - storedAt > T ->
        (Server.getCachedResult now k
           (Server.setCachedResult storedAt tsweep k v (Some T) c)).1 = VNull
        /\ (Server.getCachedResult now k
              (Server.setCachedResult storedAt tsweep k v (Some T) c)).2 !! k
           = None)
  /\ (forall (c0 : gmap string CacheEntry.t) e,
        c0 !! k = Some e -> Server.expired now e = true ->
        Server.getCachedResult now k c0 = (VNull, delete k c0)).
Proof.
  intros Hsweep Hnow.
  set (c' := Server.setCachedResult storedAt tsweep k v (Some T) c).
  set (entry := {| CacheEntry.data := v; CacheEntry.timestamp := storedAt;
                   CacheEntry.ttl := T |}).
  split; [|split].
  - intros Hfresh.
    assert (Hk : c' !! k = Some entry).
    { apply lookup_setCachedResult. rewrite lookup_insert_eq. split; [done|].
      intros _. apply fresh_spec. simpl. lia. }
    rewrite (getCachedResult_hit now k c' entry Hk); [done|].
    apply fresh_spec. simpl. lia.
  - intros Hstale.
    destruct (c' !! k) as [e|] eqn:Hk.
    + pose proof Hk as Hk'. apply lookup_setCachedResult in Hk' as [Hins _].
      rewrite lookup_insert_eq in Hins. injection Hins as <-.
      rewrite (getCachedResult_expired now k c' entry Hk).
      * simpl. split; [done|apply lookup_delete_eq].
      * apply expired_spec. simpl. lia.
    + rewrite (getCachedResult_absent now k c' Hk). done.
  - intros c0 e. apply getCachedResult_expired.
Qed.

(** Witness of C3: an entry stored at time 0 with a ttl of 10 ms and read
    at time 5. *)
Lemma cache_freshness_witness :
  (5 - 0 <= 10 ->
     Server.getCachedResult 5 "k"
       (Server.setCachedResult 0 0 "k" (VNum 1) (Some 10) ∅)
     = (VNum 1, Server.setCachedResult 0 0 "k" (VNum 1) (Some 10) ∅))
  /\ (5 - 0 > 10 ->
        (Server.getCachedResult 5 "k"
           (Server.setCachedResult 0 0 "k" (VNum 1) (Some 10) ∅)).1 = VNull
        /\ (Server.getCachedResult 5 "k"
              (Server.setCachedResult 0 0 "k" (VNum 1) (Some 10) ∅)).2 !! "k"
           = None)
  /\ (forall (c0 : gmap string CacheEntry.t) e,
        c0 !! "k" = Some e -> Server.expired 5 e = true ->
        Server.getCachedResult 5 "k" c0 = (VNull, delete "k" c0)).
Proof. apply (cache_freshness ∅ "k" (VNum 1) 10 0 0 5); lia. Defined.

(** C7.  [setCachedResult] overwrites the entry under its key with the
    new payload, the time of the store and the given ttl, 5 minutes
    (300000 ms) when none is given; every other key keeps its entry.
    When the map then holds more than 100 entries the sweep removes every
    entry that is expired at the time of the sweep and keeps every entry
    that is not; with at most 100 entries nothing is removed. *)
Theorem setCachedResult_put_and_sweep (now sweep : Z) (key : string)
    (data : value) (ttl : option Z) (c : gmap string CacheEntry.t) :
  let entry := {| CacheEntry.data := data;
                  CacheEntry.timestamp := now;
                  CacheEntry.ttl := match ttl with
                                    | Some t => t
                                    | None => 5 * 60 * 1000
                                    end |} in
  (<[key := entry]> c) !! key = Some entry
  /\ (forall k, k <> key -> (<[key := entry]> c) !! k = c !! k)
  /\ (forall k e,
        Server.setCachedResult now sweep key data ttl c !! k = Some e <->
        (<[key := entry]> c) !! k = Some e
        /\ (100 < Z.of_nat (size (<[key := entry]> c))
            -> Server.expired sweep e = false)).
Proof.
  intros entry. split; [apply lookup_insert_eq|]. split.
  - intros k Hk. by apply lookup_insert_ne.
  - intros k e. subst entry.
    change (5 * 60 * 1000) with Server.default_ttl.
    apply lookup_setCachedResult.
Qed.

(** Witness of C7: a 101st entry is stored at time 500 into a full cache;
    the sweep removes the expired entry "4" and keeps the entry "5" and
    the new one. *)
Lemma setCachedResult_put_and_sweep_witness :
  size full_cache = 100%nat
  /\ Server.setCachedResult 500 500 "new" yoga_payload None full_cache
       !! "new" = Some new_entry
  /\ Server.setCachedResult 500 500 "new" yoga_payload None full_cache !! "5"
     = Some (stored_entry 5)
  /\ Server.setCachedResult 500 500 "new" yoga_payload None full_cache !! "4"
     = None.
Proof.
  pose proof (setCachedResult_put_and_sweep 500 500 "new" yoga_payload None
                full_cache) as H.
  cbv zeta in H. destruct H as (Hnew & Hother & Hiff).
  assert (H5 : <["new" := new_entry]> full_cache !! "5"
               = Some (stored_entry 5)) by (vm_compute; reflexivity).
  assert (H4 : <["new" := new_entry]> full_cache !! "4"
               = Some (stored_entry 4)) by (vm_compute; reflexivity).
  assert (Hsz : 100 < Z.of_nat (size (<["new" := new_entry]> full_cache)))
    by (vm_compute; reflexivity).
  split; [vm_compute; reflexivity|].
  split; [exact (proj2 (Hiff "new" new_entry)
                   (conj Hnew (fun _ => eq_refl)))|].
  split; [exact (proj2 (Hiff "5" (stored_entry 5))
                   (conj H5 (fun _ => eq_refl)))|].
  destruct (Server.setCachedResult 500 500 "new" yoga_payload None
              full_cache !! "4") as [e|] eqn:He; [|reflexivity].
  destruct (proj1 (Hiff "4" e) He) as [Hl Hfresh].
  assert (Heq : Some e = Some (stored_entry 4))
    by (etransitivity; [symmetry; exact Hl|exact H4]).
  injection Heq as ->. specialize (Hfresh Hsz). discriminate Hfresh.
Defined.

(** ** Search history *)

Section HistoryFacts.
Import Server.
Context {A : Type}.
Implicit Types (l h : list A) (x : A).

Lemma slice_last_short n l : (length l <= n)%nat -> slice_last n l = l.
Proof.
  intros Hle. unfold slice_last.
  replace (length l - n)%nat with 0%nat by lia. done.
Qed.

Lemma length_slice_last n l : length (slice_last n l) = (length l `min` n)%nat.
Proof. unfold slice_last. rewrite length_drop. lia. Qed.

(** Dropping from the front never touches a freshly pushed element. *)
Lemma slice_last_snoc n l x :
  slice_last (S n) (l ++ [x]) = slice_last n l ++ [x].
Proof.
  unfold slice_last. rewrite length_app. simpl.
  replace (length l + 1 - S n)%nat with (length l - n)%nat by lia.
  rewrite drop_app_le by lia. done.
Qed.

Lemma slice_last_slice_last n m l :
  (n <= m)%nat -> slice_last n (slice_last m l) = slice_last n l.
Proof.
  intros Hnm. unfold slice_last at 1 3. rewrite length_slice_last.
  unfold slice_last. rewrite drop_drop. f_equal. lia.
Qed.

End HistoryFacts.

Section History.
Import Server.

(** [addToSearchHistory] keeps the last 100 elements of the log extended
    with the new record. *)
Lemma addToSearchHistory_slice now query rc h :
  addToSearchHistory now query rc h
  = slice_last 100 (h ++ [pushed now query rc]).
Proof.
  unfold addToSearchHistory. fold (pushed now query rc).
  destruct (100 <? length (h ++ [pushed now query rc]))%nat eqn:Hlen;
    [done|].
  apply Nat.ltb_ge in Hlen. by rewrite slice_last_short.
Qed.

Lemma addToSearchHistory_snoc now query rc h :
  addToSearchHistory now query rc h
  = slice_last 99 h ++ [pushed now query rc].
Proof. rewrite addToSearchHistory_slice. apply slice_last_snoc. Qed.

Lemma record_all_slice calls h :
  record_all calls h = slice_last 100 (h ++ List.map pushed_of calls)
  \/ (calls = [] /\ record_all calls h = h).
Proof.
  induction calls as [|call calls IH] using rev_ind; [by right|left].
  unfold record_all in *. rewrite fold_left_app. simpl.
  rewrite addToSearchHistory_slice. fold (pushed_of call).
  rewrite List.map_app. simpl. rewrite app_assoc.
  destruct IH as [->|[-> ->]].
  - rewrite !(slice_last_snoc 99). by rewrite slice_last_slice_last by lia.
  - simpl. by rewrite app_nil_r.
Qed.

End History.

(** C6.  Bounded FIFO history.  After every [addToSearchHistory] the log
    has at most 100 records, the record just pushed is its last element,
    and the log is the extended log without its oldest records: the
    extended log is [dropped ++ log] where [dropped] is non-empty only
    when the extended log exceeds 100 records.  Pushing 150 records onto
    the empty log leaves the last 100 of them, in the order of the
    pushes. *)
Theorem addToSearchHistory_bounded_fifo (now : Z) (query : obj)
    (rc : value) (h : list SearchRecord.t) :
  (length (Server.addToSearchHistory now query rc h) <= 100)%nat
  /\ last (Server.addToSearchHistory now query rc h)
     = Some (pushed now query rc)
  /\ (exists dropped,
        h ++ [pushed now query rc]
        = dropped ++ Server.addToSearchHistory now query rc h
        /\ length dropped = (length (h ++ [pushed now query rc]) - 100)%nat)
  /\ (forall calls,
        length calls = 150%nat ->
        record_all calls [] = skipn 50 (List.map pushed_of calls)
        /\ length (record_all calls []) = 100%nat).
Proof.
  split; [|split; [|split]].
  - rewrite addToSearchHistory_slice, length_slice_last. lia.
  - rewrite addToSearchHistory_snoc. apply last_snoc.
  - exists (firstn (length (h ++ [pushed now query rc]) - 100)
                   (h ++ [pushed now query rc])).
    rewrite addToSearchHistory_slice. unfold Server.slice_last.
    split; [by rewrite take_drop|].
    rewrite length_take. lia.
  - intros calls Hlen.
    destruct (record_all_slice calls []) as [Hr|[-> _]]; [|done].
    rewrite Hr. simpl. unfold Server.slice_last.
    rewrite length_map, Hlen. simpl. split; [done|].
    rewrite length_drop, length_map. lia.
Qed.

(** Witness of C6: 150 pushes onto the empty log. *)
Lemma addToSearchHistory_bounded_fifo_witness :
  length calls_150 = 150%nat
  /\ record_all calls_150 [] = skipn 50 (List.map pushed_of calls_150)
  /\ length (record_all calls_150 []) = 100%nat.
Proof.
  split; [reflexivity|].
  apply (addToSearchHistory_bounded_fifo 0 [] VNull [] : _ /\ _ /\ _ /\ _).
  reflexivity.
Defined.

(** ** The search handler: what a run does to the cache and the history *)

(** C10.  Cache switched off.  When the caller passes [use_cache: false]
    the handler neither reads nor writes the cache: the cache map after
    the run is the one before, the answer is never a cached payload, and
    when the upstream call succeeds the answer is the upstream result and
    one record, with the effective parameters, is pushed onto the
    history; when it fails the history is unchanged. *)
Theorem use_cache_false_skips_cache (clock : Clock)
    (upstream : obj -> upstream_result) (args : obj) (ctx : SearchContext) :
  JS.get "use_cache" args = VBool false ->
  let params := Server.searchParams args (preferences ctx) in
  let out := Handler.search_activities clock upstream args ctx in
  cache out.2 = cache ctx
  /\ (forall cached, out.1 <> CachedResponse cached)
  /\ match upstream params with
     | Resolved result =>
         out.1 = SearchResponse result params
         /\ recentSearches out.2
            = Server.addToSearchHistory (t_history clock) params
                (JS.or (JS.member "total_results" result) (VNum 0))
                (recentSearches ctx)
         /\ last (recentSearches out.2)
            = Some (pushed (t_history clock) params
                      (JS.or (JS.member "total_results" result) (VNum 0)))
     | Rejected e =>
         out.1 = SearchFailed ("Search failed: " +:+ e)
         /\ recentSearches out.2 = recentSearches ctx
     end.
Proof.
  intros Hoff params out. subst out. unfold Handler.search_activities.
  rewrite Hoff. simpl. fold params.
  destruct (upstream params) as [result|e]; simpl.
  - repeat split; try done.
    rewrite addToSearchHistory_snoc. apply last_snoc.
  - repeat split; done.
Qed.

(** Witness of C10: a fresh entry exists under the derived key, and the
    run still answers with the upstream result and leaves the cache
    alone. *)
Lemma use_cache_false_skips_cache_witness :
  JS.get "use_cache" uncached_args = VBool false
  /\ cache uncached_context
     !! Server.generateCacheKey
          (Server.searchParams uncached_args initial_preferences) <> None
  /\ cache (Handler.search_activities (clock_at 10) upstream_ok
              uncached_args uncached_context).2
     = cache uncached_context
  /\ (Handler.search_activities (clock_at 10) upstream_ok
        uncached_args uncached_context).1
     = SearchResponse yoga_payload
         (Server.searchParams uncached_args initial_preferences)
  /\ length (recentSearches
               (Handler.search_activities (clock_at 10) upstream_ok
                  uncached_args uncached_context).2) = 1%nat.
Proof.
  destruct (use_cache_false_skips_cache (clock_at 10) upstream_ok
              uncached_args uncached_context eq_refl)
    as (Hcache & _ & Hresp & Hhist & _).
  split; [reflexivity|].
  split; [simpl; rewrite lookup_singleton_eq; discriminate|].
  split; [exact Hcache|]. split; [exact Hresp|].
  rewrite Hhist. reflexivity.
Defined.

(** C5 (as the code has it).  When the upstream call fails, nothing is
    stored: the history and the preferences are unchanged and the cache
    gains no entry.  The cache is unchanged but for one case: the lookup
    that precedes the upstream call deletes the entry under the derived
    key when that entry has expired. *)
Theorem failed_search_stores_nothing (clock : Clock)
    (upstream : obj -> upstream_result) (args : obj) (ctx : SearchContext)
    (e : string) :
  upstream (Server.searchParams args (preferences ctx)) = Rejected e ->
  let key :=
    Server.generateCacheKey (Server.searchParams args (preferences ctx)) in
  let out := Handler.search_activities clock upstream args ctx in
  recentSearches out.2 = recentSearches ctx
  /\ preferences out.2 = preferences ctx
  /\ cache out.2 ⊆ cache ctx
  /\ (cache out.2 = cache ctx
      \/ exists old,
           cache ctx !! key = Some old
           /\ Server.expired (t_lookup clock) old = true
           /\ JS.get "use_cache" args <> VBool false
           /\ cache out.2 = delete key (cache ctx)).
Proof.
  intros Hfail key out. subst out. unfold Handler.search_activities.
  fold key. rewrite Hfail.
  destruct (JS.is_not_false (JS.get "use_cache" args)) eqn:Huse; simpl.
  - assert (Hon : JS.get "use_cache" args <> VBool false).
    { intros Heq. rewrite Heq in Huse. discriminate. }
    unfold Server.getCachedResult.
    destruct (cache ctx !! key) as [old|] eqn:Hk.
    + destruct (Server.expired (t_lookup clock) old) eqn:Hexp; simpl.
      * repeat split; try done; [apply delete_subseteq|].
        right. exists old. done.
      * destruct (JS.truthy (CacheEntry.data old)); simpl;
          repeat split; try done; by left.
    + simpl. repeat split; try done. by left.
  - repeat split; try done. by left.
Qed.

(** Witness of C5: the upstream call fails on an empty cache. *)
Lemma failed_search_stores_nothing_witness :
  upstream_down (Server.searchParams yoga_args (preferences empty_context))
    = Rejected "Error: timeout"
  /\ recentSearches
       (Handler.search_activities (clock_at 0) upstream_down yoga_args
          empty_context).2 = []
  /\ cache (Handler.search_activities (clock_at 0) upstream_down yoga_args
              empty_context).2 ⊆ ∅.
Proof.
  destruct (failed_search_stores_nothing (clock_at 0) upstream_down
              yoga_args empty_context "Error: timeout" eq_refl)
    as (Hhist & _ & Hsub & _).
  split; [reflexivity|]. split; [exact Hhist|exact Hsub].
Defined.

(** Counterexample to C5 as stated: the cache holds an entry for the
    derived key that expired long ago; the upstream call fails; the run
    has deleted the entry, so the cache map is not the one before. *)
Lemma failed_search_changes_cache :
  upstream_down
    (Server.searchParams yoga_args (preferences (one_entry_context 0)))
    = Rejected "Error: timeout"
  /\ (Handler.search_activities (clock_at 1000000) upstream_down yoga_args
        (one_entry_context 0)).1
     = SearchFailed "Search failed: Error: timeout"
  /\ cache (one_entry_context 0) !! yoga_key <> None
  /\ cache (Handler.search_activities (clock_at 1000000) upstream_down
              yoga_args (one_entry_context 0)).2 !! yoga_key = None
  /\ cache (Handler.search_activities (clock_at 1000000) upstream_down
              yoga_args (one_entry_context 0)).2
     <> cache (one_entry_context 0).
Proof.
  assert (Hbefore : cache (one_entry_context 0) !! yoga_key <> None).
  { simpl. rewrite lookup_singleton_eq. discriminate. }
  assert (Hafter :
            cache (Handler.search_activities (clock_at 1000000)
                     upstream_down yoga_args (one_entry_context 0)).2
            !! yoga_key = None).
  { vm_compute. reflexivity. }
  split; [reflexivity|]. split; [reflexivity|].
  split; [exact Hbefore|]. split; [exact Hafter|].
  intros Heq. rewrite Heq in Hafter. exact (Hbefore Hafter).
Qed.

(** ** Objects: reading after writing *)

Section ObjectFacts.
Context {V : Type}.
Implicit Types (o b : list (string * V)) (k : string) (v : V).

Lemma obj_lookup_app k o1 o2 :
  JS.lookup k (o1 ++ o2)
  = match JS.lookup k o1 with Some v => Some v | None => JS.lookup k o2 end.
Proof.
  induction o1 as [|[k' v'] o1 IH]; simpl; [done|].
  by destruct (String.eqb k k').
Qed.

Lemma lookup_None_keys k o : JS.lookup k o = None <-> k ∉ List.map fst o.
Proof.
  induction o as [|[k' v'] o IH]; simpl.
  - split; [intros _; apply not_elem_of_nil|done].
  - rewrite not_elem_of_cons. destruct (String.eqb_spec k k') as [->|Hne].
    + split; [done|]. intros [Hk _]. done.
    + rewrite IH. tauto.
Qed.

Lemma keys_replace k v o : List.map fst (JS.replace k v o) = List.map fst o.
Proof.
  induction o as [|[k' v'] o IH]; simpl; [done|].
  destruct (String.eqb_spec k k') as [->|Hne]; simpl; [done|by rewrite IH].
Qed.

Lemma lookup_replace k v o k' :
  JS.lookup k' (JS.replace k v o)
  = if String.eqb k' k
    then (if JS.has k o then Some v else None)
    else JS.lookup k' o.
Proof.
  unfold JS.has. induction o as [|[k0 v0] o IH]; simpl.
  - by destruct (String.eqb k' k).
  - destruct (String.eqb_spec k k0) as [->|Hne]; simpl.
    + by destruct (String.eqb k' k0).
    + rewrite IH. destruct (String.eqb_spec k' k0) as [->|Hne'].
      * destruct (String.eqb_spec k0 k) as [->|]; done.
      * done.
Qed.

Lemma lookup_insert_index i k v o k' :
  JS.lookup k o = None ->
  JS.lookup k' (JS.insert_index i k v o)
  = if String.eqb k' k then Some v else JS.lookup k' o.
Proof.
  induction o as [|[k0 v0] o IH]; simpl; [done|].
  destruct (String.eqb_spec k k0) as [->|Hne]; [done|]. intros Hk.
  destruct (JS.array_index k0) as [j|]; [destruct (j <? i)%N|]; simpl;
    try done.
  rewrite IH by done.
  destruct (String.eqb_spec k' k0) as [->|]; [|done].
  destruct (String.eqb_spec k0 k) as [->|]; done.
Qed.

(** Reading [k'] after [o[k] = v]. *)
Lemma lookup_set k v o k' :
  JS.lookup k' (JS.set k v o)
  = if String.eqb k' k then Some v else JS.lookup k' o.
Proof.
  unfold JS.set. destruct (JS.has k o) eqn:Hhas.
  - rewrite lookup_replace, Hhas. done.
  - assert (Hk : JS.lookup k o = None).
    { unfold JS.has in Hhas. by destruct (JS.lookup k o). }
    destruct (JS.array_index k) as [i|].
    + by apply lookup_insert_index.
    + rewrite obj_lookup_app. simpl.
      destruct (String.eqb_spec k' k) as [->|]; [by rewrite Hk|].
      by destruct (JS.lookup k' o).
Qed.

Lemma has_set k v o k' :
  JS.has k' (JS.set k v o) = String.eqb k' k || JS.has k' o.
Proof.
  unfold JS.has at 1. rewrite lookup_set.
  destruct (String.eqb k' k); done.
Qed.

(** An object lists each key once; reading it back to front finds the
    same values. *)
Lemma lookup_rev_NoDup k o :
  NoDup (List.map fst o) -> JS.lookup k (rev o) = JS.lookup k o.
Proof.
  induction o as [|[k0 v0] o IH]; simpl; [done|].
  intros Hnd. apply NoDup_cons in Hnd as [Hnin Hnd].
  rewrite obj_lookup_app, IH by done. simpl.
  destruct (String.eqb_spec k k0) as [->|Hne].
  - apply lookup_None_keys in Hnin. by rewrite Hnin.
  - by destruct (JS.lookup k o).
Qed.

Lemma lookup_filter_keys (p : string -> bool) k o :
  JS.lookup k (List.filter (fun kv => p kv.1) o)
  = if p k then JS.lookup k o else None.
Proof.
  induction o as [|[k0 v0] o IH]; simpl; [by destruct (p k)|].
  destruct (p k0) eqn:Hp0; simpl; rewrite IH.
  - destruct (String.eqb_spec k k0) as [->|]; [by rewrite Hp0|done].
  - destruct (String.eqb_spec k k0) as [->|]; [by rewrite Hp0|done].
Qed.

Lemma NoDup_keys_filter (f : string * V -> bool) o :
  NoDup (List.map fst o) -> NoDup (List.map fst (List.filter f o)).
Proof.
  induction o as [|[k0 v0] o IH]; simpl; [done|].
  intros Hnd. apply NoDup_cons in Hnd as [Hnin Hnd].
  destruct (f (k0, v0)); simpl; [|by apply IH].
  apply NoDup_cons. split; [|by apply IH].
  intros Hin. apply Hnin.
  apply list_elem_of_In, in_map_iff in Hin as [kv [<- Hin]].
  apply filter_In in Hin as [Hin _].
  apply list_elem_of_In, in_map_iff. eauto.
Qed.

(** Two objects with the same keys in the same order and the same value
    under every key are the same object. *)
Lemma obj_ext o1 o2 :
  List.map fst o1 = List.map fst o2 ->
  NoDup (List.map fst o1) ->
  (forall k, JS.lookup k o1 = JS.lookup k o2) ->
  o1 = o2.
Proof.
  revert o2. induction o1 as [|[k1 v1] o1 IH]; intros [|[k2 v2] o2];
    simpl; try done.
  intros [= -> Hkeys] Hnd Hl. apply NoDup_cons in Hnd as [Hnin Hnd].
  pose proof (Hl k2) as Hhead. simpl in Hhead.
  rewrite String.eqb_refl in Hhead. injection Hhead as ->.
  f_equal. apply IH; try done.
  intros k'. specialize (Hl k'). simpl in Hl.
  destruct (String.eqb_spec k' k2) as [Heq|Hne]; [|done].
  subst k'. pose proof Hnin as Hnin2. rewrite Hkeys in Hnin2.
  apply lookup_None_keys in Hnin, Hnin2. congruence.
Qed.

End ObjectFacts.

Section SpreadFacts.
Implicit Types (o b src : obj) (k : string).

(** Reading a property of [{ ...b, ...src }]: the last assignment of
    [src] wins, else the property of [b] shows. *)
Lemma lookup_spread k src b :
  JS.lookup k (JS.spread src b)
  = match JS.lookup k (rev src) with
    | Some v => Some v
    | None => JS.lookup k b
    end.
Proof.
  unfold JS.spread. revert b.
  induction src as [|[k0 v0] src IH]; intros b; simpl; [done|].
  rewrite IH, obj_lookup_app, lookup_set. simpl.
  destruct (JS.lookup k (rev src)); [done|].
  by destruct (String.eqb k k0).
Qed.

Lemma lookup_spread_NoDup k src b :
  NoDup (List.map fst src) ->
  JS.lookup k (JS.spread src b)
  = match JS.lookup k src with
    | Some v => Some v
    | None => JS.lookup k b
    end.
Proof. intros Hnd. by rewrite lookup_spread, lookup_rev_NoDup. Qed.

(** Assigning keys the target already has keeps its keys in place. *)
Lemma keys_spread_present src b :
  (forall kv, kv ∈ src -> JS.has kv.1 b = true) ->
  List.map fst (JS.spread src b) = List.map fst b.
Proof.
  unfold JS.spread. revert b.
  induction src as [|[k0 v0] src IH]; intros b Hin; simpl; [done|].
  assert (Hk0 : JS.has k0 b = true) by (apply (Hin (k0, v0)); left).
  rewrite IH.
  - unfold JS.set. rewrite Hk0. apply keys_replace.
  - intros kv Hkv. rewrite has_set. apply orb_true_iff. right.
    apply Hin. by right.
Qed.

End SpreadFacts.

(** ** Objects: the order of assignments *)

Section AssignmentOrder.
Implicit Types (o b src : obj) (k : string) (v : value).

Lemma replace_comm k1 v1 k2 v2 o :
  k1 <> k2 ->
  JS.replace k1 v1 (JS.replace k2 v2 o) = JS.replace k2 v2 (JS.replace k1 v1 o).
Proof.
  intros Hne. induction o as [|[k0 v0] o IH]; simpl; [done|].
  destruct (String.eqb_spec k2 k0) as [E2|N2];
    destruct (String.eqb_spec k1 k0) as [E1|N1]; simpl.
  - congruence.
  - subst k0. destruct (String.eqb_spec k1 k2); [done|].
    by rewrite String.eqb_refl.
  - subst k0. rewrite String.eqb_refl.
    destruct (String.eqb_spec k2 k1); [congruence|done].
  - destruct (String.eqb_spec k1 k0); [done|].
    destruct (String.eqb_spec k2 k0); [done|]. by rewrite IH.
Qed.

Lemma replace_insert_index k1 v1 i k2 v2 o :
  k1 <> k2 ->
  JS.replace k1 v1 (JS.insert_index i k2 v2 o)
  = JS.insert_index i k2 v2 (JS.replace k1 v1 o).
Proof.
  intros Hne. induction o as [|[k0 v0] o IH]; simpl.
  - destruct (String.eqb_spec k1 k2); done.
  - destruct (String.eqb_spec k1 k0) as [E1|N1].
    + subst k0. simpl.
      destruct (JS.array_index k1) as [j|]; [destruct (j <? i)%N|]; simpl;
        rewrite ?String.eqb_refl;
        destruct (String.eqb_spec k1 k2); done.
    + simpl. destruct (JS.array_index k0) as [j|]; [destruct (j <? i)%N|];
        simpl.
      * destruct (String.eqb_spec k1 k0); [done|]. by rewrite IH.
      * destruct (String.eqb_spec k1 k2); [done|].
        destruct (String.eqb_spec k1 k0); done.
      * destruct (String.eqb_spec k1 k2); [done|].
        destruct (String.eqb_spec k1 k0); done.
Qed.

Lemma replace_app_present k v o o' :
  JS.has k o = true -> JS.replace k v (o ++ o') = JS.replace k v o ++ o'.
Proof.
  unfold JS.has. induction o as [|[k0 v0] o IH]; simpl; [done|].
  destruct (String.eqb_spec k k0); [done|]. intros H. by rewrite IH.
Qed.

Lemma set_present k v o : JS.has k o = true -> JS.set k v o = JS.replace k v o.
Proof. intros H. unfold JS.set. by rewrite H. Qed.

(** Overwriting a property the object has commutes with any assignment
    to another key. *)
Lemma set_comm_present k1 v1 k2 v2 o :
  k1 <> k2 -> JS.has k1 o = true ->
  JS.set k1 v1 (JS.set k2 v2 o) = JS.set k2 v2 (JS.set k1 v1 o).
Proof.
  intros Hne H1.
  assert (H1' : JS.has k1 (JS.set k2 v2 o) = true).
  { rewrite has_set, H1. apply orb_true_r. }
  rewrite (set_present k1 v1 _ H1'), (set_present k1 v1 _ H1).
  unfold JS.set.
  assert (H2 : JS.has k2 (JS.replace k1 v1 o) = JS.has k2 o).
  { unfold JS.has. rewrite lookup_replace.
    destruct (String.eqb_spec k2 k1); [congruence|done]. }
  rewrite H2. destruct (JS.has k2 o).
  - by apply replace_comm.
  - destruct (JS.array_index k2) as [i|].
    + by apply replace_insert_index.
    + by apply replace_app_present.
Qed.

Lemma spread_set_comm k v src b :
  (forall kv, kv ∈ src -> kv.1 <> k /\ JS.has kv.1 b = true) ->
  JS.spread src (JS.set k v b) = JS.set k v (JS.spread src b).
Proof.
  unfold JS.spread. revert b.
  induction src as [|[k0 v0] src IH]; intros b Hsrc; simpl; [done|].
  destruct (Hsrc (k0, v0)) as [Hne H0]; [left|]. simpl in Hne, H0.
  rewrite set_comm_present by done.
  apply IH. intros kv Hkv. destruct (Hsrc kv) as [Hne' H']; [by right|].
  split; [done|]. rewrite has_set, H'. apply orb_true_r.
Qed.

(** When the target already has every key selected by [p], the
    assignments to those keys can be done first. *)
Lemma spread_selected_first (p : string -> bool) src b :
  (forall k, p k = true -> JS.has k b = true) ->
  JS.spread src b
  = JS.spread (List.filter (fun kv => negb (p kv.1)) src)
      (JS.spread (List.filter (fun kv => p kv.1) src) b).
Proof.
  revert b. induction src as [|[k0 v0] src IH]; intros b Hb; [done|].
  assert (Hb' : forall k, p k = true -> JS.has k (JS.set k0 v0 b) = true).
  { intros k Hk. rewrite has_set, (Hb k Hk). apply orb_true_r. }
  change (JS.spread ((k0, v0) :: src) b)
    with (JS.spread src (JS.set k0 v0 b)).
  rewrite (IH _ Hb'). cbn [List.filter fst]. destruct (p k0) eqn:Hp0;
    cbn [negb]; [done|].
  match goal with
  | |- _ = JS.spread ((k0, v0) :: ?l) ?t =>
      change (JS.spread ((k0, v0) :: l) t) with (JS.spread l (JS.set k0 v0 t))
  end.
  f_equal. apply spread_set_comm.
  intros kv Hkv. apply list_elem_of_In, filter_In in Hkv as [_ Hp].
  split; [|by apply Hb]. intros Heq. rewrite Heq in Hp. congruence.
Qed.

End AssignmentOrder.

(** ** Request normalisation *)

Section NormalizerFacts.
Import Server.
Implicit Types (args : obj) (prefs : Preferences) (k : string).

Lemma is_computed_cases k :
  is_computed k = true ->
  k = "near" \/ k = "radius" \/ k = "exclude_children"
  \/ k = "per_page" \/ k = "current_page".
Proof.
  unfold is_computed, computed_fields. simpl.
  rewrite !orb_true_iff, !String.eqb_eq. intuition discriminate.
Qed.

Lemma has_computed_defaults args prefs k :
  is_computed k = true -> JS.has k (computed_defaults args prefs) = true.
Proof.
  intros Hk. apply is_computed_cases in Hk.
  destruct Hk as [-> | [-> | [-> | [-> | ->]]]]; reflexivity.
Qed.

Lemma lookup_computed_defaults_other args prefs k :
  is_computed k = false -> JS.lookup k (computed_defaults args prefs) = None.
Proof.
  unfold is_computed, computed_fields, computed_defaults. simpl.
  repeat (destruct (String.eqb k _); [done|]). done.
Qed.

Lemma NoDup_keys_computed_defaults args prefs :
  NoDup (List.map fst (computed_defaults args prefs)).
Proof.
  simpl. solve_NoDup_keys.
Qed.

(** The computed part reads only the computed fields of [args]. *)
Lemma computed_defaults_ext args1 args2 prefs :
  (forall k, is_computed k = true -> JS.lookup k args1 = JS.lookup k args2) ->
  computed_defaults args1 prefs = computed_defaults args2 prefs.
Proof.
  intros H. unfold computed_defaults, per_page_default, current_page_default,
    JS.get.
  by rewrite (H "near" eq_refl), (H "radius" eq_refl),
    (H "exclude_children" eq_refl), (H "per_page" eq_refl),
    (H "current_page" eq_refl).
Qed.

(** A field of the effective parameters is the caller's when the caller
    gave one, else the computed one. *)
Lemma lookup_searchParams args prefs k :
  NoDup (List.map fst args) ->
  JS.lookup k (searchParams args prefs)
  = match JS.lookup k args with
    | Some v => Some v
    | None => JS.lookup k (computed_defaults args prefs)
    end.
Proof. intros Hnd. unfold searchParams. by apply lookup_spread_NoDup. Qed.

End NormalizerFacts.

(** C4.  Normalisation fills defaults for absent fields only.  Every
    field the caller supplies reaches the effective parameters with the
    caller's value, so an explicit [exclude_children: false] is kept;
    each of [near], [radius], [exclude_children], [per_page] and
    [current_page] the caller leaves out is filled with the default
    location, the default radius, the child-exclusion preference, 25 and
    1; no other field is added.  On the caller record [{query: "yoga"}]
    with the Austin preferences the result has exactly the six fields
    query "yoga", near "Austin,TX,US", radius 10, exclude_children true,
    per_page 25 and current_page 1. *)
Theorem searchParams_fills_absent_fields (args : obj) (prefs : Preferences) :
  NoDup (List.map fst args) ->
  (forall k v, JS.lookup k args = Some v ->
               JS.lookup k (Server.searchParams args prefs) = Some v)
  /\ (JS.lookup "exclude_children" args = Some (VBool false) ->
      JS.get "exclude_children" (Server.searchParams args prefs) = VBool false)
  /\ (JS.lookup "near" args = None ->
      JS.get "near" (Server.searchParams args prefs) = defaultLocation prefs)
  /\ (JS.lookup "radius" args = None ->
      JS.get "radius" (Server.searchParams args prefs) = defaultRadius prefs)
  /\ (JS.lookup "exclude_children" args = None ->
      JS.get "exclude_children" (Server.searchParams args prefs)
      = excludeChildren prefs)
  /\ (JS.lookup "per_page" args = None ->
      JS.get "per_page" (Server.searchParams args prefs) = VNum 25)
  /\ (JS.lookup "current_page" args = None ->
      JS.get "current_page" (Server.searchParams args prefs) = VNum 1)
  /\ (forall k, is_computed k = false ->
                JS.lookup k (Server.searchParams args prefs)
                = JS.lookup k args)
  /\ Server.searchParams [("query", VStr "yoga")] austin_preferences
     = [ ("near", VStr "Austin,TX,US"); ("radius", VNum 10);
         ("exclude_children", VBool true); ("per_page", VNum 25);
         ("current_page", VNum 1); ("query", VStr "yoga") ]
  /\ Permutation
       (Server.searchParams [("query", VStr "yoga")] austin_preferences)
       [ ("query", VStr "yoga"); ("near", VStr "Austin,TX,US");
         ("radius", VNum 10); ("exclude_children", VBool true);
         ("per_page", VNum 25); ("current_page", VNum 1) ].
Proof.
  intros Hnd.
  assert (Habsent : forall k, JS.lookup k args = None ->
            JS.get k (Server.searchParams args prefs)
            = JS.get k (Server.computed_defaults args prefs)).
  { intros k Hk. unfold JS.get. by rewrite lookup_searchParams, Hk. }
  split; [|split; [|split; [|split; [|split; [|split; [|split;
    [|split; [|split]]]]]]]].
  - intros k v Hk. by rewrite lookup_searchParams, Hk.
  - intros Hk. unfold JS.get. by rewrite lookup_searchParams, Hk.
  - intros Hk. rewrite (Habsent _ Hk).
    unfold Server.computed_defaults, JS.get. simpl. by rewrite Hk.
  - intros Hk. rewrite (Habsent _ Hk).
    unfold Server.computed_defaults, JS.get. simpl. by rewrite Hk.
  - intros Hk. rewrite (Habsent _ Hk).
    unfold Server.computed_defaults, JS.get. simpl. by rewrite Hk.
  - intros Hk. rewrite (Habsent _ Hk).
    unfold Server.computed_defaults, Server.per_page_default, JS.get. simpl.
    by rewrite Hk.
  - intros Hk. rewrite (Habsent _ Hk).
    unfold Server.computed_defaults, Server.current_page_default, JS.get.
    simpl. by rewrite Hk.
  - intros k Hk. rewrite lookup_searchParams by done.
    rewrite lookup_computed_defaults_other by done.
    by destruct (JS.lookup k args).
  - reflexivity.
  - change (Server.searchParams [("query", VStr "yoga")] austin_preferences)
      with ([ ("near", VStr "Austin,TX,US"); ("radius", VNum 10);
              ("exclude_children", VBool true); ("per_page", VNum 25);
              ("current_page", VNum 1) ] ++ [("query", VStr "yoga")]).
    symmetry. apply (Permutation_cons_append _ ("query", VStr "yoga")).
Qed.

(** Witness of C4: the caller switches child exclusion off and asks for
    yoga; the preferences exclude children. *)
Lemma searchParams_fills_absent_fields_witness :
  NoDup (List.map fst [("exclude_children", VBool false);
                       ("query", VStr "yoga")])
  /\ JS.get "exclude_children"
       (Server.searchParams [("exclude_children", VBool false);
                             ("query", VStr "yoga")] austin_preferences)
     = VBool false
  /\ JS.get "near"
       (Server.searchParams [("exclude_children", VBool false);
                             ("query", VStr "yoga")] austin_preferences)
     = VStr "Austin,TX,US".
Proof.
  assert (Hnd : NoDup (List.map fst [("exclude_children", VBool false);
                                     ("query", VStr "yoga")])).
  { simpl. solve_NoDup_keys. }
  destruct (searchParams_fills_absent_fields
              [("exclude_children", VBool false); ("query", VStr "yoga")]
              austin_preferences Hnd)
    as (_ & Hfalse & Hnear & _).
  split; [exact Hnd|]. split; [exact (Hfalse eq_refl)|exact (Hnear eq_refl)].
Defined.

(** C2 (the code at the failing input).  The handler computes
    [Math.min(per_page, 50)] for the [per_page] field, and the [...args]
    spread that ends the object literal writes the caller's value over
    it: a numeric [per_page] of the caller is the effective page size
    whatever its size, although the value computed for the field is at
    most 50.  A caller value of 500 gives the effective page size 500,
    not 50, and a caller value of 0 gives 0, not 1; the effective
    parameters are what the cache key is made of.  Only the client,
    downstream of the effective parameters, sends 50 and 25 for them.  An
    absent [current_page] is 1 in the effective parameters. *)
Theorem caller_per_page_overrides_clamp (args : obj) (prefs : Preferences)
    (n : Z) :
  NoDup (List.map fst args) ->
  JS.lookup "per_page" args = Some (VNum n) ->
  JS.get "per_page" (Server.computed_defaults args prefs)
  = VNum (Z.min n 50)
  /\ JS.get "per_page" (Server.searchParams args prefs) = VNum n
  /\ Client.query_per_page (Server.searchParams args prefs)
     = Some (Z.min (if n =? 0 then 25 else n) 50)
  /\ (JS.lookup "current_page" args = None ->
      JS.get "current_page" (Server.searchParams args prefs) = VNum 1)
  /\ JS.get "per_page" (Server.searchParams [("per_page", VNum 500)] prefs)
     = VNum 500
  /\ VNum 500 <> VNum 50
  /\ JS.get "per_page"
       (Server.computed_defaults [("per_page", VNum 500)] prefs)
     = VNum 50
  /\ JS.get "per_page" (Server.searchParams [("per_page", VNum 0)] prefs)
     = VNum 0
  /\ VNum 0 <> VNum 1
  /\ Server.generateCacheKey
       (Server.searchParams [("per_page", VNum 500)] initial_preferences)
     <> Server.generateCacheKey
          (Server.searchParams [("per_page", VNum 50)] initial_preferences).
Proof.
  intros Hnd Hn.
  assert (Hget : forall k, JS.get k (Server.searchParams args prefs)
            = match JS.lookup k args with
              | Some v => v
              | None => JS.get k (Server.computed_defaults args prefs)
              end).
  { intros k. unfold JS.get. rewrite lookup_searchParams by done.
    by destruct (JS.lookup k args). }
  split; [unfold Server.computed_defaults, Server.per_page_default, JS.get;
          simpl; by rewrite Hn|].
  split; [by rewrite Hget, Hn|].
  split; [unfold Client.query_per_page; rewrite Hget, Hn;
          unfold JS.or; simpl; by destruct (n =? 0)|].
  split.
  { intros Hc. rewrite Hget, Hc.
    unfold Server.computed_defaults, Server.current_page_default, JS.get.
    simpl. by rewrite Hc. }
  repeat split; try reflexivity; try discriminate.
Qed.

(** What the code does on [{ per_page: 500 }]: the effective page size
    is 500, the value computed for the field is 50. *)
Lemma caller_per_page_overrides_clamp_witness :
  NoDup (List.map fst [("per_page", VNum 500)])
  /\ JS.get "per_page"
       (Server.searchParams [("per_page", VNum 500)] austin_preferences)
     = VNum 500
  /\ JS.get "per_page"
       (Server.computed_defaults [("per_page", VNum 500)] austin_preferences)
     = VNum 50.
Proof.
  assert (Hnd : NoDup (List.map fst [("per_page", VNum 500)])).
  { simpl. solve_NoDup_keys. }
  destruct (caller_per_page_overrides_clamp [("per_page", VNum 500)]
              austin_preferences 500 Hnd eq_refl)
    as (Hdef & Heff & _).
  split; [exact Hnd|]. split; [exact Heff|exact Hdef].
Defined.

(** ** Cache keys *)

(** Counterexample to C1 as stated: two effective parameter records with
    the same field-value pairs, [query] and [category] in opposite
    orders, get different cache keys. *)
Lemma cache_key_depends_on_field_order :
  Permutation (Server.searchParams swapped_args_1 initial_preferences)
              (Server.searchParams swapped_args_2 initial_preferences)
  /\ Server.generateCacheKey
       (Server.searchParams swapped_args_1 initial_preferences)
     <> Server.generateCacheKey
          (Server.searchParams swapped_args_2 initial_preferences).
Proof.
  split.
  - change (Server.searchParams swapped_args_1 initial_preferences)
      with (Server.computed_defaults [] initial_preferences
              ++ [("query", VStr "yoga"); ("category", VStr "event")]).
    change (Server.searchParams swapped_args_2 initial_preferences)
      with (Server.computed_defaults [] initial_preferences
              ++ [("category", VStr "event"); ("query", VStr "yoga")]).
    apply Permutation_app_head, perm_swap.
  - vm_compute. discriminate.
Qed.

(** C1 (as the code has it).  The cache key is a function of the
    parameter record as [JSON.stringify] enumerates it.  In the search
    handler the five computed fields are created first, in a fixed order,
    and a caller value only overwrites them in place: two caller records with the same fields give the same key when they
    differ only in where [near], [radius], [exclude_children], [per_page]
    and [current_page] stand; the order of the other caller fields is
    part of the key. *)
Theorem cache_key_ignores_place_of_computed_fields (args1 args2 : obj)
    (prefs : Preferences) :
  NoDup (List.map fst args1) ->
  NoDup (List.map fst args2) ->
  (forall k, is_computed k = true -> JS.lookup k args1 = JS.lookup k args2) ->
  List.filter (fun kv => negb (is_computed kv.1)) args1
  = List.filter (fun kv => negb (is_computed kv.1)) args2 ->
  Server.generateCacheKey (Server.searchParams args1 prefs)
  = Server.generateCacheKey (Server.searchParams args2 prefs).
Proof.
  intros Hnd1 Hnd2 Hcomputed Hrest. f_equal. unfold Server.searchParams.
  rewrite (spread_selected_first is_computed args1),
          (spread_selected_first is_computed args2)
    by (intros k; apply has_computed_defaults).
  rewrite Hrest, (computed_defaults_ext args1 args2 prefs Hcomputed).
  f_equal.
  set (b := Server.computed_defaults args2 prefs).
  assert (Hpresent : forall (args : obj) (kv : string * value),
            kv ∈ List.filter (fun kv => is_computed kv.1) args ->
            JS.has kv.1 b = true).
  { intros args kv Hkv. apply list_elem_of_In, filter_In in Hkv as [_ Hkv].
    by apply has_computed_defaults. }
  apply obj_ext.
  - rewrite !keys_spread_present by apply Hpresent. done.
  - rewrite keys_spread_present by apply Hpresent.
    apply NoDup_keys_computed_defaults.
  - intros k.
    rewrite !lookup_spread_NoDup by (by apply NoDup_keys_filter).
    rewrite !lookup_filter_keys.
    destruct (is_computed k) eqn:Hk; [|done]. by rewrite Hcomputed.
Qed.

(** Witness of C1: [per_page] given second or first. *)
Lemma cache_key_ignores_place_of_computed_fields_witness :
  paged_args_1 <> paged_args_2
  /\ Server.generateCacheKey
       (Server.searchParams paged_args_1 initial_preferences)
     = Server.generateCacheKey
         (Server.searchParams paged_args_2 initial_preferences).
Proof.
  split; [discriminate|].
  apply (cache_key_ignores_place_of_computed_fields
           paged_args_1 paged_args_2 initial_preferences).
  - simpl. solve_NoDup_keys.
  - simpl. solve_NoDup_keys.
  - intros k Hk. apply is_computed_cases in Hk.
    destruct Hk as [-> | [-> | [-> | [-> | ->]]]]; reflexivity.
  - reflexivity.
Defined.

(** ** Upstream error mapping *)

Section ErrorFacts.

Lemma string_prefix_refl (s : string) : String.prefix s s = true.
Proof.
  induction s as [|c s IH]; simpl; [done|].
  destruct (ascii_dec c c); [exact IH|done].
Qed.

Lemma includes_unfold (m s : string) :
  JS.includes m s
  = String.prefix m s
    || match s with
       | EmptyString => false
       | String _ s' => JS.includes m s'
       end.
Proof. destruct s; reflexivity. Qed.

Lemma includes_refl (s : string) : JS.includes s s = true.
Proof. rewrite includes_unfold, string_prefix_refl. apply orb_true_l. Qed.

(** A text that contains [m] still contains it behind any prefix. *)
Lemma includes_append (pre m s : string) :
  JS.includes m s = true -> JS.includes m (pre +:+ s) = true.
Proof.
  intros H. induction pre as [|c pre IH]; [exact H|].
  change (String c pre +:+ s) with (String c (pre +:+ s)).
  rewrite includes_unfold, IH. apply orb_true_r.
Qed.

End ErrorFacts.

(** Counterexample to C8 as stated.  On a 414 the error thrown has a
    fixed text that does not carry the upstream message; a 403 whose
    message contains "Not Authorized" and also "Over Rate Limit" is
    reported as a rate limit, not as unauthorized. *)
Lemma error_text_drops_upstream_message :
  Client.upstream_message uri_too_long = "URI Too Long"
  /\ Client.searchActivities_error uri_too_long
     = {| code := InvalidParams;
          message :=
            "Request URI too long. Please reduce the number of parameters." |}
  /\ JS.includes (Client.upstream_message uri_too_long)
       (message (Client.searchActivities_error uri_too_long)) = false
  /\ JS.includes "Not Authorized" (Client.upstream_message forbidden_both)
     = true
  /\ Client.searchActivities_error forbidden_both
     = {| code := InvalidRequest;
          message := "API rate limit exceeded. Please try again later." |}
  /\ Client.searchActivities_error forbidden_both
     <> {| code := InvalidParams;
           message := "Invalid API key or unauthorized access." |}.
Proof. repeat split; try reflexivity. discriminate. Qed.

(** C8 (as the code has it).  The [catch] block of the search call maps
    400 to [InvalidParams] "Bad request: <message>"; 403 to the rate-limit
    error when the message contains "Over Rate Limit", else to the
    unauthorized error when it contains "Not Authorized", else to
    "Access denied: <message>"; 414 to [InvalidParams] with a fixed text;
    502, 503 and 504 to [InternalError] with a fixed text; every other
    status to [InternalError] "Active Network API error (<status>):
    <message>".  The details lookup maps 404 to "Activity not found",
    which the search call does not, and every other status to
    [InternalError] "Failed to get activity details: <message>".  The
    upstream message text, which is the message of the response when it
    has one, is carried by the errors for 400, for the remaining 403, for
    the other statuses and for the details failures; the rate-limit,
    unauthorized, 414, 502/503/504 and not-found errors have fixed
    texts. *)
Theorem upstream_error_mapping (e : Client.AxiosError) :
  (Client.status e = Some 400 ->
     Client.searchActivities_error e
     = {| code := InvalidParams;
          message := "Bad request: " +:+ Client.upstream_message e |})
  /\ (Client.status e = Some 403 ->
      JS.includes "Over Rate Limit" (Client.upstream_message e) = true ->
      Client.searchActivities_error e
      = {| code := InvalidRequest;
           message := "API rate limit exceeded. Please try again later." |})
  /\ (Client.status e = Some 403 ->
      JS.includes "Over Rate Limit" (Client.upstream_message e) = false ->
      JS.includes "Not Authorized" (Client.upstream_message e) = true ->
      Client.searchActivities_error e
      = {| code := InvalidParams;
           message := "Invalid API key or unauthorized access." |})
  /\ (Client.status e = Some 403 ->
      JS.includes "Over Rate Limit" (Client.upstream_message e) = false ->
      JS.includes "Not Authorized" (Client.upstream_message e) = false ->
      Client.searchActivities_error e
      = {| code := InvalidRequest;
           message := "Access denied: " +:+ Client.upstream_message e |})
  /\ (Client.status e = Some 414 ->
      Client.searchActivities_error e
      = {| code := InvalidParams;
           message :=
             "Request URI too long. Please reduce the number of parameters."
        |})
  /\ (Client.status e = Some 502 \/ Client.status e = Some 503
      \/ Client.status e = Some 504 ->
      Client.searchActivities_error e
      = {| code := InternalError;
           message := "Active Network API is temporarily unavailable. Please try again later." |})
  /\ (Client.status e <> Some 400 -> Client.status e <> Some 403 ->
      Client.status e <> Some 414 -> Client.status e <> Some 502 ->
      Client.status e <> Some 503 -> Client.status e <> Some 504 ->
      Client.searchActivities_error e
      = {| code := InternalError;
           message := "Active Network API error ("
                        +:+ Client.status_text (Client.status e) +:+ "): "
                        +:+ Client.upstream_message e |})
  /\ (Client.status e = Some 404 ->
      Client.getActivityDetails_error e
      = {| code := InvalidRequest; message := "Activity not found" |}
      /\ code (Client.searchActivities_error e) = InternalError)
  /\ (Client.status e <> Some 404 ->
      Client.getActivityDetails_error e
      = {| code := InternalError;
           message := "Failed to get activity details: "
                        +:+ Client.upstream_message e |})
  /\ (forall m, Client.data_message e = Some m -> m <> EmptyString ->
                Client.upstream_message e = m)
  /\ (Client.data_message e = None ->
      Client.upstream_message e = Client.error_message e)
  /\ ((Client.status e = Some 400
       \/ (Client.status e = Some 403
           /\ JS.includes "Over Rate Limit" (Client.upstream_message e)
              = false
           /\ JS.includes "Not Authorized" (Client.upstream_message e)
              = false)
       \/ (Client.status e <> Some 403 /\ Client.status e <> Some 414
           /\ Client.status e <> Some 502 /\ Client.status e <> Some 503
           /\ Client.status e <> Some 504)) ->
      JS.includes (Client.upstream_message e)
        (message (Client.searchActivities_error e)) = true).
Proof.
  destruct e as [st dm em]. unfold Client.searchActivities_error,
    Client.getActivityDetails_error. simpl Client.status.
  set (msg := Client.upstream_message _).
  assert (Hne : forall n, st <> Some n -> Client.status_is st n = false).
  { intros n Hn. destruct st as [z|]; [|done]. simpl.
    apply Z.eqb_neq. congruence. }
  split; [by intros ->|].
  split; [by intros -> ->|].
  split; [by intros -> -> ->|].
  split; [by intros -> -> ->|].
  split; [by intros ->|].
  split; [by intros [->|[->| ->]]|].
  split.
  { intros H400 H403 H414 H502 H503 H504.
    by rewrite !Hne by done. }
  split; [by intros ->|].
  split; [intros H404; by rewrite Hne by done|].
  split.
  { intros m Hm Hnn. subst msg. unfold Client.upstream_message. simpl in *.
    rewrite Hm. destruct (String.eqb_spec m EmptyString); done. }
  split.
  { intros Hm. subst msg. unfold Client.upstream_message. simpl in *.
    by rewrite Hm. }
  intros [->|[(-> & -> & ->)|(H403 & H414 & H502 & H503 & H504)]].
  - simpl. apply (includes_append "Bad request: "), includes_refl.
  - simpl. apply (includes_append "Access denied: "), includes_refl.
  - rewrite (Hne 403), (Hne 414), (Hne 502), (Hne 503), (Hne 504) by done.
    destruct (Client.status_is st 400); simpl.
    + apply (includes_append "Bad request: "), includes_refl.
    + apply (includes_append "Active Network API error ("),
            (includes_append (Client.status_text st)),
            (includes_append "): "), includes_refl.
Qed.

(** Witness of C8: a 400 with an upstream message text. *)
Lemma upstream_error_mapping_witness :
  Client.status bad_request = Some 400
  /\ Client.searchActivities_error bad_request
     = {| code := InvalidParams; message := "Bad request: Invalid radius" |}.
Proof.
  destruct (upstream_error_mapping bad_request) as (H400 & _).
  split; [reflexivity|exact (H400 eq_refl)].
Defined.

(** ** Analytics *)

Section TallyFacts.
Implicit Types (k : string) (ks l : list string).

Lemma mem_elem_of k l : mem k l = true <-> k ∈ l.
Proof.
  unfold mem. rewrite existsb_exists, list_elem_of_In. split.
  - intros [x [Hin Heq]]. apply String.eqb_eq in Heq. by subst.
  - intros Hin. exists k. split; [done|apply String.eqb_refl].
Qed.










End TallyFacts.

Section SortFacts.
Import Analytics.
Implicit Types (x y : string * Z) (l : list (string * Z)).








End SortFacts.

Section IndexFacts.
Implicit Types (k : string) (s : string) (c : ascii).









End IndexFacts.

Section EnumerationFacts.
Implicit Types (k : string) (ks l : list string).



























End EnumerationFacts.




(** * Properties of the rest of the code *)

(** ** Cache statistics *)

Section CacheAdminFacts.
Import Server CacheAdmin.
Implicit Types (c : gmap string CacheEntry.t) (now : Z).

Lemma fold_count_entry now (l : list (string * CacheEntry.t)) v e :
  fold_left (count_entry now) l (v, e)
  = ((v + length (filter (fresh_at now) l))%nat,
     (e + (length l - length (filter (fresh_at now) l)))%nat).
Proof.
  revert v e. induction l as [|kv l IH]; intros v e; simpl.
  - f_equal; lia.
  - unfold count_entry at 2. rewrite filter_cons.
    pose proof (length_filter (fresh_at now) l) as Hle.
    destruct (decide (fresh_at now kv)) as [Hf|Hf]; unfold fresh_at in Hf.
    + rewrite Hf. simpl. rewrite IH. f_equal; lia.
    + apply not_false_is_true in Hf. rewrite Hf. simpl. rewrite IH.
      f_equal; lia.
Qed.

(** The sweep is the map filter that keeps the unexpired entries. *)
Lemma cleanupExpiredCache_filter now c :
  cleanupExpiredCache now c = filter (fresh_at now) c.
Proof.
  apply map_eq. intros k. rewrite lookup_cleanupExpiredCache.
  destruct (c !! k) as [e|] eqn:Hk.
  - destruct (expired now e) eqn:He.
    + symmetry. apply map_lookup_filter_None. right. intros e' Hk' Hf.
      unfold fresh_at in Hf. simpl in Hf. congruence.
    + symmetry. apply map_lookup_filter_Some. done.
  - symmetry. apply map_lookup_filter_None. by left.
Qed.

Lemma size_filter_fresh now c :
  size (filter (fresh_at now) c)
  = length (filter (fresh_at now) (map_to_list c)).
Proof.
  rewrite map_filter_alt.
  rewrite <- length_map_to_list.
  apply Permutation_length, map_to_list_to_map.
  apply NoDup_fmap_fst.
  - intros k e1 e2 H1 H2. apply list_elem_of_filter in H1 as [_ H1].
    apply list_elem_of_filter in H2 as [_ H2].
    apply elem_of_map_to_list in H1, H2. congruence.
  - apply NoDup_filter, NoDup_map_to_list.
Qed.

Lemma getCacheStats_counts now c :
  validEntries (getCacheStats now c) = size (cleanupExpiredCache now c)
  /\ (validEntries (getCacheStats now c)
      + expiredEntries (getCacheStats now c))%nat = size c.
Proof.
  unfold getCacheStats. simpl. rewrite fold_count_entry. simpl.
  rewrite cleanupExpiredCache_filter, size_filter_fresh.
  split; [done|].
  pose proof (length_filter (fresh_at now) (map_to_list c)) as Hle.
  rewrite <- (length_map_to_list c). lia.
Qed.

Lemma expired_mono t1 t2 (e : CacheEntry.t) :
  t1 <= t2 -> expired t1 e = true -> expired t2 e = true.
Proof. rewrite !expired_spec. lia. Qed.

Lemma cleanupExpiredCache_twice t1 t2 c :
  t1 <= t2 ->
  cleanupExpiredCache t2 (cleanupExpiredCache t1 c) = cleanupExpiredCache t2 c.
Proof.
  intros Hle. apply map_eq. intros k. rewrite !lookup_cleanupExpiredCache.
  destruct (c !! k) as [e|]; [|done].
  destruct (expired t1 e) eqn:H1; [|done].
  by rewrite (expired_mono t1 t2 e Hle H1).
Qed.

End CacheAdminFacts.

(** X1.  [getCacheStats] splits the entries into valid and expired ones
    by the rule a lookup uses: the two counters add up to the number of
    entries, [validEntries] is the number of entries a sweep at the same
    instant keeps, and right after such a sweep the statistics show no
    expired entry and the same valid ones. *)
Theorem getCacheStats_partition (now : Z) (c : gmap string CacheEntry.t) :
  CacheAdmin.totalEntries (CacheAdmin.getCacheStats now c) = size c
  /\ (CacheAdmin.validEntries (CacheAdmin.getCacheStats now c)
      + CacheAdmin.expiredEntries (CacheAdmin.getCacheStats now c))%nat
     = size c
  /\ CacheAdmin.validEntries (CacheAdmin.getCacheStats now c)
     = size (Server.cleanupExpiredCache now c)
  /\ CacheAdmin.getCacheStats now (Server.cleanupExpiredCache now c)
     = {| CacheAdmin.totalEntries :=
            CacheAdmin.validEntries (CacheAdmin.getCacheStats now c);
          CacheAdmin.validEntries :=
            CacheAdmin.validEntries (CacheAdmin.getCacheStats now c);
          CacheAdmin.expiredEntries := 0 |}.
Proof.
  destruct (getCacheStats_counts now c) as [Hvalid Hsum].
  split; [done|]. split; [done|]. split; [done|].
  destruct (getCacheStats_counts now (Server.cleanupExpiredCache now c))
    as [Hvalid' Hsum'].
  rewrite cleanupExpiredCache_twice in Hvalid' by lia.
  destruct (CacheAdmin.getCacheStats now (Server.cleanupExpiredCache now c))
    as [t v e] eqn:Hs.
  assert (Ht : t = size (Server.cleanupExpiredCache now c)).
  { change t with (CacheAdmin.totalEntries
                     {| CacheAdmin.totalEntries := t;
                        CacheAdmin.validEntries := v;
                        CacheAdmin.expiredEntries := e |}).
    by rewrite <- Hs. }
  simpl in *. f_equal; lia.
Qed.

(** X2.  Sweeps compose: a sweep leaves no entry that is expired at its
    instant, sweeping again at the same instant changes nothing, and a
    later sweep gives the same cache whether or not an earlier sweep ran
    before it. *)
Theorem cleanupExpiredCache_composes (t1 t2 : Z)
    (c : gmap string CacheEntry.t) :
  t1 <= t2 ->
  (forall k e, Server.cleanupExpiredCache t1 c !! k = Some e ->
               c !! k = Some e /\ Server.expired t1 e = false)
  /\ Server.cleanupExpiredCache t1 (Server.cleanupExpiredCache t1 c)
     = Server.cleanupExpiredCache t1 c
  /\ Server.cleanupExpiredCache t2 (Server.cleanupExpiredCache t1 c)
     = Server.cleanupExpiredCache t2 c.
Proof.
  intros Hle. split; [|split].
  - intros k e. rewrite lookup_cleanupExpiredCache.
    destruct (c !! k) as [e'|]; [|done].
    destruct (Server.expired t1 e') eqn:He; [done|].
    intros [= <-]. done.
  - apply cleanupExpiredCache_twice. lia.
  - by apply cleanupExpiredCache_twice.
Qed.

(** Witness of X2: the full cache swept at time 5 and then at time 500. *)
Lemma cleanupExpiredCache_composes_witness :
  5 <= 500
  /\ Server.cleanupExpiredCache 500 (Server.cleanupExpiredCache 5 full_cache)
     = Server.cleanupExpiredCache 500 full_cache.
Proof.
  split; [lia|].
  apply (cleanupExpiredCache_composes 5 500 full_cache). lia.
Defined.

(** ** Storing without eviction *)

(** X3.  [setCachedResult] evicts nothing but expired entries: an entry
    under another key that is not expired at the sweep is still there
    afterwards, whatever the size of the map.  When no entry at all is
    expired the result is the plain insertion, so a new key makes the
    map one entry larger even above 100 entries. *)
Theorem setCachedResult_never_evicts_fresh (now sweep : Z) (key : string)
    (data : value) (ttl : option Z) (c : gmap string CacheEntry.t) :
  (forall k e, c !! k = Some e -> k <> key ->
               Server.expired sweep e = false ->
               Server.setCachedResult now sweep key data ttl c !! k = Some e)
  /\ (map_Forall (fun _ e => Server.expired sweep e = false)
        (<[key := {| CacheEntry.data := data;
                     CacheEntry.timestamp := now;
                     CacheEntry.ttl := match ttl with
                                       | Some t => t
                                       | None => Server.default_ttl
                                       end |}]> c) ->
      Server.setCachedResult now sweep key data ttl c
      = <[key := {| CacheEntry.data := data;
                    CacheEntry.timestamp := now;
                    CacheEntry.ttl := match ttl with
                                      | Some t => t
                                      | None => Server.default_ttl
                                      end |}]> c
      /\ (c !! key = None ->
          size (Server.setCachedResult now sweep key data ttl c)
          = S (size c))).
Proof.
  split.
  - intros k e Hk Hne Hfresh. apply lookup_setCachedResult.
    rewrite lookup_insert_ne by done. done.
  - intros Hall.
    assert (Heq : Server.setCachedResult now sweep key data ttl c
                  = <[key := {| CacheEntry.data := data;
                                CacheEntry.timestamp := now;
                                CacheEntry.ttl := match ttl with
                                                  | Some t => t
                                                  | None => Server.default_ttl
                                                  end |}]> c).
    { apply map_eq. intros k.
      destruct (<[key := _]> c !! k) as [e|] eqn:Hk.
      - apply lookup_setCachedResult. split; [done|].
        intros _. exact (Hall k e Hk).
      - destruct (Server.setCachedResult now sweep key data ttl c !! k)
          as [e|] eqn:Hr; [|done].
        apply lookup_setCachedResult in Hr as [Hr _]. congruence. }
    split; [exact Heq|].
    intros Hnew. rewrite Heq. by apply map_size_insert_None.
Qed.

(** Witness of X3: a 101st entry stored at time 5, when nothing in the
    full cache has expired yet. *)
Lemma setCachedResult_never_evicts_fresh_witness :
  size full_cache = 100%nat
  /\ size (Server.setCachedResult 5 5 "new" yoga_payload None full_cache)
     = 101%nat.
Proof.
  pose proof (setCachedResult_never_evicts_fresh 5 5 "new" yoga_payload None
                full_cache) as [_ H].
  assert (Hsize : size full_cache = 100%nat) by (vm_compute; reflexivity).
  split; [exact Hsize|].
  destruct H as [_ Hgrow].
  - apply (bool_decide_unpack _). vm_compute. reflexivity.
  - rewrite Hgrow; [by rewrite Hsize|]. vm_compute. reflexivity.
Defined.

(** ** The [clear_cache] tool *)

Section ClearCacheFacts.
Import Server Handler CacheAdmin.

(** A cache key is never the empty string: it starts with a brace. *)
Lemma generateCacheKey_nonempty (params : obj) :
  generateCacheKey params <> EmptyString.
Proof. unfold generateCacheKey, JS.stringify_object. simpl. discriminate. Qed.

(** With nothing stored under the derived key the handler goes
    upstream. *)
Lemma search_activities_uncached clock upstream args ctx :
  cache ctx !! generateCacheKey (searchParams args (preferences ctx)) = None ->
  forall cached,
    (search_activities clock upstream args ctx).1 <> CachedResponse cached.
Proof.
  intros Hk cached. unfold search_activities.
  destruct (JS.is_not_false (JS.get "use_cache" args)); simpl.
  - rewrite (getCachedResult_absent _ _ _ Hk). simpl.
    destruct (upstream _); discriminate.
  - destruct (upstream _); discriminate.
Qed.

End ClearCacheFacts.

(** X4.  [clear_cache] with a non-empty string key removes the entry
    under that key and no other; with an absent, empty or otherwise falsy
    key it empties the cache.  Clearing the key derived from a search
    makes the next run of that search go upstream: its answer is never a
    cached payload. *)
Theorem clear_cache_effect (args : obj) (c : gmap string CacheEntry.t) :
  (forall key, JS.get "cache_key" args = VStr key -> key <> EmptyString ->
     (CacheAdmin.clear_cache args c).2 !! key = None
     /\ forall k, k <> key ->
          (CacheAdmin.clear_cache args c).2 !! k = c !! k)
  /\ (JS.truthy (JS.get "cache_key" args) = false ->
      (CacheAdmin.clear_cache args c).2 = ∅)
  /\ (forall clock upstream search_args ctx cached,
        cache ctx = c ->
        JS.get "cache_key" args
        = VStr (Server.generateCacheKey
                  (Server.searchParams search_args (preferences ctx))) ->
        (Handler.search_activities clock upstream search_args
           (with_cache (CacheAdmin.clear_cache args c).2 ctx)).1
        <> CachedResponse cached).
Proof.
  unfold CacheAdmin.clear_cache. split; [|split].
  - intros key Hkey Hne. rewrite Hkey. simpl.
    destruct (String.eqb_spec key EmptyString) as [|_]; [done|]. simpl.
    split; [apply lookup_delete_eq|]. intros k Hk. by apply lookup_delete_ne.
  - intros Hfalsy. by rewrite Hfalsy.
  - intros clock upstream search_args ctx cached Hc Hkey.
    apply search_activities_uncached. simpl. rewrite Hkey. simpl.
    set (key := Server.generateCacheKey _).
    destruct (String.eqb_spec key EmptyString) as [He|_].
    + by apply generateCacheKey_nonempty in He.
    + simpl. apply lookup_delete_eq.
Qed.

(** Witness of X4: the one entry of the cache is cleared by its key, and
    the search that stored it goes upstream again. *)
Lemma clear_cache_effect_witness :
  cache (one_entry_context 0) !! yoga_key <> None
  /\ (CacheAdmin.clear_cache [("cache_key", VStr yoga_key)]
        (cache (one_entry_context 0))).2 !! yoga_key = None
  /\ (Handler.search_activities (clock_at 10) upstream_ok yoga_args
        (with_cache
           (CacheAdmin.clear_cache [("cache_key", VStr yoga_key)]
              (cache (one_entry_context 0))).2
           (one_entry_context 0))).1
     <> CachedResponse yoga_payload.
Proof.
  destruct (clear_cache_effect [("cache_key", VStr yoga_key)]
              (cache (one_entry_context 0))) as (Hdel & _ & Hnext).
  split; [simpl; rewrite lookup_singleton_eq; discriminate|].
  split.
  - apply (Hdel yoga_key eq_refl). apply generateCacheKey_nonempty.
  - apply (Hnext (clock_at 10) upstream_ok yoga_args (one_entry_context 0)
             yoga_payload eq_refl eq_refl).
Defined.

(** ** A repeated search *)

Section RepeatFacts.
Import Server Handler.

Lemma is_not_false_true (v : value) :
  v <> VBool false -> JS.is_not_false v = true.
Proof. intros Hv. destruct v as [| |[]| | | |]; done. Qed.

End RepeatFacts.

(** X5.  A search that went upstream with the cache on and got a truthy
    payload is answered from the cache when it is repeated with the same
    arguments within the 5 minutes of the default ttl: the second run
    returns the stored payload as a cached answer, whatever the upstream
    would say, and changes neither the cache nor the history, so a cache
    hit leaves no history record. *)
Theorem repeated_search_served_from_cache (clock1 clock2 : Clock)
    (upstream upstream2 : obj -> upstream_result) (args : obj)
    (ctx : SearchContext) (result : value) :
  JS.get "use_cache" args <> VBool false ->
  (Handler.search_activities clock1 upstream args ctx).1
  = SearchResponse result (Server.searchParams args (preferences ctx)) ->
  JS.truthy result = true ->
  t_store clock1 <= t_sweep clock1 ->
  t_sweep clock1 <= t_lookup clock2 ->
  t_lookup clock2 - t_store clock1 <= 300000 ->
  Handler.search_activities clock2 upstream2 args
    (Handler.search_activities clock1 upstream args ctx).2
  = (CachedResponse result,
     (Handler.search_activities clock1 upstream args ctx).2).
Proof.
  intros Hon Hfirst Htruthy Hs1 Hs2 Hfresh.
  apply is_not_false_true in Hon.
  unfold Handler.search_activities in Hfirst |- * at 2 3.
  rewrite Hon in *. simpl in Hfirst |- *.
  destruct (Server.getCachedResult (t_lookup clock1) _ (cache ctx))
    as [cached c1] eqn:Hget.
  destruct (JS.truthy cached); [discriminate|].
  destruct (upstream _) as [r|e]; [|discriminate].
  simpl in Hfirst. injection Hfirst as ->.
  unfold Handler.search_activities. simpl. rewrite Hon.
  set (key := Server.generateCacheKey _).
  set (c2 := Server.setCachedResult _ _ key result None c1).
  assert (Hk : c2 !! key
               = Some {| CacheEntry.data := result;
                         CacheEntry.timestamp := t_store clock1;
                         CacheEntry.ttl := Server.default_ttl |}).
  { apply lookup_setCachedResult. rewrite lookup_insert_eq. split; [done|].
    intros _. apply fresh_spec. simpl. unfold Server.default_ttl. lia. }
  rewrite (getCachedResult_hit _ _ _ _ Hk).
  - simpl. by rewrite Htruthy.
  - apply fresh_spec. simpl. unfold Server.default_ttl. lia.
Qed.

(** Witness of X5: the yoga search on an empty context at time 0,
    repeated at time 1000 while the upstream is down. *)
Lemma repeated_search_served_from_cache_witness :
  (Handler.search_activities (clock_at 1000) upstream_down yoga_args
     (Handler.search_activities (clock_at 0) upstream_ok yoga_args
        empty_context).2).1
  = CachedResponse yoga_payload
  /\ length (recentSearches
              (Handler.search_activities (clock_at 1000) upstream_down
                 yoga_args
                 (Handler.search_activities (clock_at 0) upstream_ok
                    yoga_args empty_context).2).2) = 1%nat.
Proof.
  rewrite (repeated_search_served_from_cache (clock_at 0) (clock_at 1000)
             upstream_ok upstream_down yoga_args empty_context yoga_payload).
  - split; reflexivity.
  - discriminate.
  - reflexivity.
  - reflexivity.
  - simpl. lia.
  - simpl. lia.
  - simpl. lia.
Defined.

(** ** The history tool *)

Section HistoryToolFacts.
Import HistoryTool.
Context {A : Type}.
Implicit Types (l : list A).

Lemma slice_suffix start l : exists older, l = older ++ slice start l.
Proof.
  unfold slice. eexists. symmetry. apply take_drop.
Qed.

Lemma slice_negative n l :
  0 < n -> slice (- n) l = Server.slice_last (Z.to_nat n) l.
Proof.
  intros Hn. unfold slice, Server.slice_last.
  replace (- n <? 0) with true by (symmetry; apply Z.ltb_lt; lia).
  f_equal. lia.
Qed.

Lemma slice_zero l : slice 0 l = l.
Proof. unfold slice. simpl. by rewrite Z.min_l by lia. Qed.

Lemma slice_positive n l :
  0 <= n -> slice n l = skipn (Z.to_nat n `min` length l) l.
Proof.
  intros Hn. unfold slice.
  replace (n <? 0) with false by (symmetry; apply Z.ltb_ge; lia).
  f_equal. lia.
Qed.

End HistoryToolFacts.

(** X6.  [get_search_history] shows a suffix of the history.  Without a
    numeric [limit] it shows the last 10 records; with a [limit] of at
    least 1 it shows the last [min(limit, 50)], never more than 50.  A
    [limit] of 0 shows the whole history, because [slice(-0)] starts at
    the front, and a negative [limit] drops that many of the oldest
    records and shows the rest. *)
Theorem get_search_history_limit (now : Z) (args : obj) (ctx : SearchContext) :
  (exists older,
     recentSearches ctx
     = older ++ HistoryAnswer.recentSearches
                  (HistoryTool.get_search_history now args ctx))
  /\ (JS.is_number (JS.get "limit" args) = false ->
      HistoryAnswer.recentSearches
        (HistoryTool.get_search_history now args ctx)
      = Server.slice_last 10 (recentSearches ctx))
  /\ (forall n, JS.get "limit" args = VNum n -> 1 <= n ->
        HistoryAnswer.recentSearches
          (HistoryTool.get_search_history now args ctx)
        = Server.slice_last (Z.to_nat (Z.min n 50)) (recentSearches ctx)
        /\ (length (HistoryAnswer.recentSearches
                      (HistoryTool.get_search_history now args ctx))
            <= 50)%nat)
  /\ (JS.get "limit" args = VNum 0 ->
      HistoryAnswer.recentSearches
        (HistoryTool.get_search_history now args ctx)
      = recentSearches ctx)
  /\ (forall n, JS.get "limit" args = VNum n -> n < 0 ->
        HistoryAnswer.recentSearches
          (HistoryTool.get_search_history now args ctx)
        = skipn (Z.to_nat (- n) `min` length (recentSearches ctx))
                (recentSearches ctx)).
Proof.
  unfold HistoryTool.get_search_history, HistoryTool.limit_of. simpl.
  split; [apply slice_suffix|]. split; [|split; [|split]].
  - intros Hnum. destruct (JS.get "limit" args); try discriminate;
      by rewrite (slice_negative 10).
  - intros n -> Hn. rewrite slice_negative by lia. split; [done|].
    rewrite length_slice_last. lia.
  - intros ->. apply slice_zero.
  - intros n -> Hn. rewrite Z.min_l by lia. apply slice_positive. lia.
Qed.

(** Witness of X6: on a history of 60 records a limit of 0 shows all 60,
    a limit of 200 shows 50. *)
Lemma get_search_history_limit_witness :
  length (HistoryAnswer.recentSearches
            (HistoryTool.get_search_history 0 [("limit", VNum 0)]
               (history_context history_60))) = 60%nat
  /\ length (HistoryAnswer.recentSearches
               (HistoryTool.get_search_history 0 [("limit", VNum 200)]
                  (history_context history_60))) = 50%nat.
Proof.
  destruct (get_search_history_limit 0 [("limit", VNum 0)]
              (history_context history_60)) as (_ & _ & _ & Hzero & _).
  destruct (get_search_history_limit 0 [("limit", VNum 200)]
              (history_context history_60)) as (_ & _ & Hbig & _).
  rewrite (Hzero eq_refl).
  destruct (Hbig 200 eq_refl) as [-> _]; [lia|].
  split; reflexivity.
Defined.

(** ** The preference tool *)

Section PreferenceFacts.
Import PreferenceTool.

(** A declared member after [Object.assign]: the member of the source
    when it has one, else the member as it was. *)
Lemma get_assign (src : obj) (p : Preferences) (k : string) :
  NoDup (List.map fst src) ->
  JS.get k (JS.spread src (to_object p))
  = match JS.lookup k src with
    | Some v => v
    | None => JS.get k (to_object p)
    end.
Proof.
  intros Hnd. unfold JS.get. rewrite lookup_spread_NoDup by done.
  by destruct (JS.lookup k src).
Qed.

Lemma preferences_after_set (args : obj) (ctx : SearchContext) (src : obj) :
  JS.get "action" args = VStr "set" ->
  JS.get "preferences" args = VObj src ->
  NoDup (List.map fst src) ->
  preferences (manage_preferences args ctx).2
  = {| defaultLocation :=
         match JS.lookup "defaultLocation" src with
         | Some v => v
         | None => defaultLocation (preferences ctx)
         end;
       defaultRadius :=
         match JS.lookup "defaultRadius" src with
         | Some v => v
         | None => defaultRadius (preferences ctx)
         end;
       favoriteCategories :=
         match JS.lookup "favoriteCategories" src with
         | Some v => v
         | None => favoriteCategories (preferences ctx)
         end;
       excludeChildren :=
         match JS.lookup "excludeChildren" src with
         | Some v => v
         | None => excludeChildren (preferences ctx)
         end |}.
Proof.
  intros Hact Hprefs Hnd. unfold manage_preferences.
  rewrite Hact, Hprefs. simpl. unfold of_object.
  rewrite !get_assign by done. done.
Qed.

Lemma manage_preferences_frame (args : obj) (ctx : SearchContext) :
  cache (manage_preferences args ctx).2 = cache ctx
  /\ recentSearches (manage_preferences args ctx).2 = recentSearches ctx.
Proof.
  unfold manage_preferences.
  repeat (match goal with
          | |- context [if ?b then _ else _] => destruct b
          end); done.
Qed.

End PreferenceFacts.

(** X7.  [manage_preferences] with action "set" merges the given object
    over the stored preferences member by member: a member the object
    has replaces the stored one as a whole, a member it lacks is kept;
    no value is validated.  With action "reset" the startup defaults are
    back whatever was stored.  A missing action or an unknown one fails
    with [InvalidParams] and changes nothing.  No action touches the
    cache or the history. *)
Theorem manage_preferences_merge (args : obj) (ctx : SearchContext) :
  (forall src,
     JS.get "action" args = VStr "set" ->
     JS.get "preferences" args = VObj src ->
     NoDup (List.map fst src) ->
     let p := preferences (PreferenceTool.manage_preferences args ctx).2 in
     defaultLocation p
     = match JS.lookup "defaultLocation" src with
       | Some v => v
       | None => defaultLocation (preferences ctx)
       end
     /\ defaultRadius p
        = match JS.lookup "defaultRadius" src with
          | Some v => v
          | None => defaultRadius (preferences ctx)
          end
     /\ favoriteCategories p
        = match JS.lookup "favoriteCategories" src with
          | Some v => v
          | None => favoriteCategories (preferences ctx)
          end
     /\ excludeChildren p
        = match JS.lookup "excludeChildren" src with
          | Some v => v
          | None => excludeChildren (preferences ctx)
          end)
  /\ (JS.get "action" args = VStr "set" ->
      JS.truthy (JS.get "preferences" args) = false ->
      PreferenceTool.manage_preferences args ctx
      = (PreferenceTool.Updated (preferences ctx),
         PreferenceTool.with_preferences (preferences ctx) ctx))
  /\ (JS.get "action" args = VStr "reset" ->
      preferences (PreferenceTool.manage_preferences args ctx).2
      = initial_preferences)
  /\ (JS.truthy (JS.get "action" args) = false ->
      PreferenceTool.manage_preferences args ctx
      = (PreferenceTool.Failed
           {| code := InvalidParams; message := "Action is required" |},
         ctx))
  /\ (forall name,
        JS.get "action" args = VStr name ->
        name <> EmptyString -> name <> "get" -> name <> "set" ->
        name <> "reset" ->
        PreferenceTool.manage_preferences args ctx
        = (PreferenceTool.Failed
             {| code := InvalidParams;
                message := "Unknown action: " +:+ name |},
           ctx))
  /\ cache (PreferenceTool.manage_preferences args ctx).2 = cache ctx
  /\ recentSearches (PreferenceTool.manage_preferences args ctx).2
     = recentSearches ctx.
Proof.
  split; [|split; [|split; [|split; [|split]]]].
  - intros src Hact Hprefs Hnd.
    rewrite (preferences_after_set args ctx src Hact Hprefs Hnd). done.
  - intros Hact Hfalsy. unfold PreferenceTool.manage_preferences.
    rewrite Hact. simpl. by rewrite Hfalsy.
  - intros Hact. unfold PreferenceTool.manage_preferences.
    by rewrite Hact.
  - intros Hfalsy. unfold PreferenceTool.manage_preferences.
    by rewrite Hfalsy.
  - intros name Hact Hne Hget Hset Hreset.
    unfold PreferenceTool.manage_preferences. rewrite Hact. simpl.
    destruct (String.eqb_spec name EmptyString); [done|]. simpl.
    destruct (String.eqb_spec name "get"); [done|].
    destruct (String.eqb_spec name "set"); [done|].
    destruct (String.eqb_spec name "reset"); done.
  - apply manage_preferences_frame.
Qed.

(** Witness of X7: Portland and a radius of 5 are set over the startup
    preferences; the child-exclusion flag is kept. *)
Lemma manage_preferences_merge_witness :
  preferences
    (PreferenceTool.manage_preferences
       [("action", VStr "set"); ("preferences", portland_preferences)]
       empty_context).2
  = {| defaultLocation := VStr "Portland,OR,US";
       defaultRadius := VNum 5;
       favoriteCategories := VArr [];
       excludeChildren := VBool true |}.
Proof.
  destruct (manage_preferences_merge
              [("action", VStr "set"); ("preferences", portland_preferences)]
              empty_context) as (Hset & _).
  specialize (Hset _ eq_refl eq_refl).
  destruct Hset as (Hl & Hr & Hf & He).
  { simpl. solve_NoDup_keys. }
  destruct (preferences _) as [l r f e]. simpl in *. by subst.
Defined.

(** X8.  Stored preferences drive the next search: after a "set" that
    gives a default location, radius or child-exclusion flag, a search
    whose arguments leave [near], [radius] or [exclude_children] out
    carries the value just set in its effective parameters, whatever
    that value is. *)
Theorem set_preferences_then_search (args : obj) (ctx : SearchContext)
    (src search_args : obj) :
  JS.get "action" args = VStr "set" ->
  JS.get "preferences" args = VObj src ->
  NoDup (List.map fst src) ->
  NoDup (List.map fst search_args) ->
  let prefs := preferences (PreferenceTool.manage_preferences args ctx).2 in
  (forall v, JS.lookup "defaultLocation" src = Some v ->
             JS.lookup "near" search_args = None ->
             JS.get "near" (Server.searchParams search_args prefs) = v)
  /\ (forall v, JS.lookup "defaultRadius" src = Some v ->
                JS.lookup "radius" search_args = None ->
                JS.get "radius" (Server.searchParams search_args prefs) = v)
  /\ (forall v, JS.lookup "excludeChildren" src = Some v ->
                JS.lookup "exclude_children" search_args = None ->
                JS.get "exclude_children"
                  (Server.searchParams search_args prefs) = v).
Proof.
  intros Hact Hprefs Hnd Hnd' prefs. subst prefs.
  rewrite (preferences_after_set args ctx src Hact Hprefs Hnd).
  set (prefs := {| defaultLocation := _ |}).
  assert (Habsent : forall k, JS.lookup k search_args = None ->
            JS.get k (Server.searchParams search_args prefs)
            = JS.get k (Server.computed_defaults search_args prefs)).
  { intros k Hk. unfold JS.get. by rewrite lookup_searchParams, Hk. }
  split; [|split].
  - intros v Hv Hk. rewrite (Habsent _ Hk).
    unfold Server.computed_defaults, JS.get. simpl. by rewrite Hk, Hv.
  - intros v Hv Hk. rewrite (Habsent _ Hk).
    unfold Server.computed_defaults, JS.get. simpl. by rewrite Hk, Hv.
  - intros v Hv Hk. rewrite (Habsent _ Hk).
    unfold Server.computed_defaults, JS.get. simpl. by rewrite Hk, Hv.
Qed.

(** Witness of X8: after Portland is set as default location, a yoga
    search is a search near Portland. *)
Lemma set_preferences_then_search_witness :
  JS.get "near"
    (Server.searchParams yoga_args
       (preferences
          (PreferenceTool.manage_preferences
             [("action", VStr "set"); ("preferences", portland_preferences)]
             empty_context).2))
  = VStr "Portland,OR,US".
Proof.
  assert (Hsrc : NoDup (List.map fst
                          [("defaultLocation", VStr "Portland,OR,US");
                           ("defaultRadius", VNum 5)])).
  { simpl. solve_NoDup_keys. }
  assert (Hargs : NoDup (List.map fst yoga_args)).
  { simpl. solve_NoDup_keys. }
  destruct (set_preferences_then_search
              [("action", VStr "set"); ("preferences", portland_preferences)]
              empty_context _ yoga_args eq_refl eq_refl Hsrc Hargs)
    as (Hnear & _).
  exact (Hnear _ eq_refl eq_refl).
Defined.

(** ** The upstream query *)

Section QueryFacts.
Import ClientQuery.
Implicit Types (params q : obj) (k : string) (s : step).

Lemma lookup_Some_In {V : Type} k (v : V) (o : list (string * V)) :
  JS.lookup k o = Some v -> In (k, v) o.
Proof.
  induction o as [|[k0 v0] o IH]; simpl; [done|].
  destruct (String.eqb_spec k k0) as [->|]; [|by right; apply IH].
  intros [= ->]. by left.
Qed.

Lemma In_keep_some {A : Type} (x : A) (l : list (option A)) :
  In x (JS.keep_some l) <-> In (Some x) l.
Proof.
  unfold JS.keep_some. rewrite in_flat_map. split.
  - intros [[y|] [Hin Hx]]; simpl in Hx; [|done].
    destruct Hx as [->|[]]. done.
  - intros Hin. exists (Some x). split; [done|by left].
Qed.

(** A statement assigns one of its target names. *)
Lemma effect_targets params s k v :
  effect params s = Some (k, v) -> In k (targets s).
Proof.
  destruct s as [|k0|k0|k0]; simpl; unfold copy.
  - repeat (match goal with
            | |- context [if ?b then _ else _] => destruct b
            end); intros [= <- <-]; tauto.
  - destruct (JS.is_defined _); [|done]. intros [= <- <-]. by left.
  - destruct (JS.truthy _); [|done]. intros [= <- <-]. by left.
  - destruct (JS.get k0 params) as [| |[]| | | |]; try done.
    intros [= <- <-]. by left.
Qed.

(** Only the statements that target [k] matter for the value of [k]. *)
Lemma lookup_effects_targets params k (l : list step) :
  JS.lookup k (rev (JS.keep_some (List.map (effect params) l)))
  = JS.lookup k
      (rev (JS.keep_some
              (List.map (effect params)
                 (List.filter (fun s => mem k (targets s)) l)))).
Proof.
  induction l as [|s l IH]; [done|]. simpl.
  destruct (mem k (targets s)) eqn:Hm; simpl.
  - destruct (effect params s) as [[k' v']|]; simpl; [|exact IH].
    by rewrite !obj_lookup_app, IH.
  - destruct (effect params s) as [[k' v']|] eqn:He; simpl; [|exact IH].
    rewrite obj_lookup_app, IH. simpl.
    destruct (String.eqb_spec k k') as [->|].
    + apply effect_targets, list_elem_of_In, mem_elem_of in He. congruence.
    + match goal with
      | |- match ?x with _ => _ end = _ => destruct x; reflexivity
      end.
Qed.

(** Reading a member of the query. *)
Lemma lookup_queryParams apiKey params n k :
  Client.query_per_page params = Some n ->
  exists q,
    queryParams apiKey params = Some q
    /\ JS.lookup k q
       = match JS.lookup k
                 (rev (JS.keep_some
                         (List.map (effect params)
                            (List.filter (fun s => mem k (targets s))
                               steps)))) with
         | Some v => Some v
         | None => JS.lookup k (initial apiKey n params)
         end.
Proof.
  intros Hn. unfold queryParams. rewrite Hn. eexists. split; [done|].
  by rewrite lookup_spread, lookup_effects_targets.
Qed.

(** The four location members of the query, read off the parameters. *)
Lemma queryParams_location apiKey params q :
  queryParams apiKey params = Some q ->
  JS.lookup "lat_lon" q
  = (if JS.truthy (JS.get "lat_lon" params)
     then Some (JS.get "lat_lon" params) else None)
  /\ JS.lookup "near" q
     = (if JS.truthy (JS.get "lat_lon" params) then None
        else if JS.truthy (JS.get "near" params)
        then Some (JS.get "near" params) else None)
  /\ JS.lookup "bbox" q
     = (if JS.truthy (JS.get "lat_lon" params) then None
        else if JS.truthy (JS.get "near" params) then None
        else if JS.truthy (JS.get "bbox" params)
        then Some (JS.get "bbox" params) else None)
  /\ JS.lookup "geo_points" q
     = (if JS.truthy (JS.get "lat_lon" params) then None
        else if JS.truthy (JS.get "near" params) then None
        else if JS.truthy (JS.get "bbox" params) then None
        else if JS.truthy (JS.get "geo_points" params)
        then Some (JS.get "geo_points" params) else None).
Proof.
  intros Hq.
  destruct (Client.query_per_page params) as [n|] eqn:Hn;
    [|unfold queryParams in Hq; by rewrite Hn in Hq].
  assert (Hl : forall k,
            JS.lookup k q
            = match JS.lookup k
                      (rev (JS.keep_some
                              (List.map (effect params)
                                 (List.filter (fun s => mem k (targets s))
                                    steps)))) with
              | Some v => Some v
              | None => JS.lookup k (initial apiKey n params)
              end).
  { intros k. destruct (lookup_queryParams apiKey params n k Hn)
      as (q' & Hq' & Hk). congruence. }
  pose proof (Hl "lat_lon") as H1. pose proof (Hl "near") as H2.
  pose proof (Hl "bbox") as H3. pose proof (Hl "geo_points") as H4.
  cbn in H1, H2, H3, H4. rewrite H1, H2, H3, H4.
  destruct (JS.truthy (JS.get "lat_lon" params)),
    (JS.truthy (JS.get "near" params)),
    (JS.truthy (JS.get "bbox" params)),
    (JS.truthy (JS.get "geo_points" params)); done.
Qed.

(** A member the statements do not target is the one of the initial
    object. *)
Lemma lookup_queryParams_initial apiKey params n q k :
  Client.query_per_page params = Some n ->
  queryParams apiKey params = Some q ->
  List.filter (fun s => mem k (targets s)) steps = [] ->
  JS.lookup k q = JS.lookup k (initial apiKey n params).
Proof.
  intros Hn Hq Hnone.
  destruct (lookup_queryParams apiKey params n k Hn) as (q' & Hq' & Hk).
  rewrite Hq in Hq'. injection Hq' as <-. rewrite Hk, Hnone. reflexivity.
Qed.

Lemma lookup_effects_origin params (l : list step) (init : obj) k v :
  JS.lookup k (JS.spread (JS.keep_some (List.map (effect params) l)) init)
  = Some v ->
  (exists s, In s l /\ effect params s = Some (k, v)) \/ In (k, v) init.
Proof.
  rewrite lookup_spread.
  destruct (JS.lookup k (rev _)) as [v'|] eqn:Hk.
  - intros [= ->]. left.
    apply lookup_Some_In in Hk. rewrite <- in_rev in Hk.
    apply (proj1 (In_keep_some _ _)) in Hk.
    apply (proj1 (in_map_iff _ _ _)) in Hk as (s & Hs & Hin). eauto.
  - intros Hinit. right. by apply lookup_Some_In.
Qed.

(** Where a member of the query comes from. *)
Lemma lookup_queryParams_origin apiKey params q k v :
  queryParams apiKey params = Some q ->
  JS.lookup k q = Some v ->
  (exists s, In s steps /\ effect params s = Some (k, v))
  \/ (exists n, Client.query_per_page params = Some n
                /\ In (k, v) (initial apiKey n params)).
Proof.
  unfold queryParams.
  destruct (Client.query_per_page params) as [n|]; [|done].
  intros Hq Hk.
  assert (Hq' : q = JS.spread
                      (JS.keep_some (List.map (effect params) steps))
                      (initial apiKey n params)) by congruence.
  rewrite Hq' in Hk.
  apply lookup_effects_origin in Hk as [Hs|Hi]; [by left|right; eauto].
Qed.

End QueryFacts.

(** X9.  One location mode at most reaches the upstream query, chosen in
    the order [lat_lon], [near], [bbox], [geo_points]: the first of them
    that is truthy in the parameters is sent with its value and the three
    others are not sent; when none is truthy none is sent. *)
Theorem queryParams_one_location (apiKey : string) (params q : obj) :
  ClientQuery.queryParams apiKey params = Some q ->
  (JS.truthy (JS.get "lat_lon" params) = true ->
     JS.lookup "lat_lon" q = Some (JS.get "lat_lon" params)
     /\ JS.lookup "near" q = None /\ JS.lookup "bbox" q = None
     /\ JS.lookup "geo_points" q = None)
  /\ (JS.truthy (JS.get "lat_lon" params) = false ->
      JS.truthy (JS.get "near" params) = true ->
      JS.lookup "near" q = Some (JS.get "near" params)
      /\ JS.lookup "lat_lon" q = None /\ JS.lookup "bbox" q = None
      /\ JS.lookup "geo_points" q = None)
  /\ (JS.truthy (JS.get "lat_lon" params) = false ->
      JS.truthy (JS.get "near" params) = false ->
      JS.truthy (JS.get "bbox" params) = true ->
      JS.lookup "bbox" q = Some (JS.get "bbox" params)
      /\ JS.lookup "lat_lon" q = None /\ JS.lookup "near" q = None
      /\ JS.lookup "geo_points" q = None)
  /\ (JS.truthy (JS.get "lat_lon" params) = false ->
      JS.truthy (JS.get "near" params) = false ->
      JS.truthy (JS.get "bbox" params) = false ->
      JS.truthy (JS.get "geo_points" params) = true ->
      JS.lookup "geo_points" q = Some (JS.get "geo_points" params)
      /\ JS.lookup "lat_lon" q = None /\ JS.lookup "near" q = None
      /\ JS.lookup "bbox" q = None)
  /\ (JS.truthy (JS.get "lat_lon" params) = false ->
      JS.truthy (JS.get "near" params) = false ->
      JS.truthy (JS.get "bbox" params) = false ->
      JS.truthy (JS.get "geo_points" params) = false ->
      JS.lookup "lat_lon" q = None /\ JS.lookup "near" q = None
      /\ JS.lookup "bbox" q = None /\ JS.lookup "geo_points" q = None).
Proof.
  intros Hq.
  destruct (queryParams_location apiKey params q Hq) as (H1 & H2 & H3 & H4).
  rewrite H1, H2, H3, H4.
  repeat split; intros;
    repeat (match goal with
            | H : JS.truthy _ = _ |- _ => rewrite H; clear H
            end); reflexivity.
Qed.

(** Witness of X9: the caller gives a bounding box and a place name; the
    place name is sent, the box is not. *)
Lemma queryParams_one_location_witness :
  option_map (JS.lookup "near")
    (ClientQuery.queryParams "key"
       [("bbox", VStr "37,-122;38,-121"); ("near", VStr "Austin,TX,US")])
  = Some (Some (VStr "Austin,TX,US"))
  /\ option_map (JS.lookup "bbox")
       (ClientQuery.queryParams "key"
          [("bbox", VStr "37,-122;38,-121"); ("near", VStr "Austin,TX,US")])
     = Some None.
Proof.
  destruct (queryParams_one_location "key"
              [("bbox", VStr "37,-122;38,-121");
               ("near", VStr "Austin,TX,US")] _ eq_refl)
    as (_ & Hnear & _).
  destruct (Hnear eq_refl eq_refl) as (Hn & _ & Hb & _).
  split; [exact (f_equal Some Hn)|exact (f_equal Some Hb)].
Defined.

(** X10.  The upstream query carries no empty value.  Besides
    [api_key], [exclude_children], [per_page] and [current_page], which
    are always sent, a member of the query is [radius] with the caller's
    value whenever that is not [undefined], or a truthy value copied
    from the member of the same name of the parameters, or the string
    "true" for a flag that is exactly [true] in the parameters.  A member
    that is absent or falsy in the parameters is left out. *)
Theorem queryParams_sends_only_set_fields (apiKey : string)
    (params q : obj) :
  ClientQuery.queryParams apiKey params = Some q ->
  (forall k v,
     JS.lookup k q = Some v ->
     In k ["api_key"; "exclude_children"; "per_page"; "current_page"]
     \/ (k = "radius" /\ v = JS.get "radius" params /\ v <> VUndefined)
     \/ (JS.truthy v = true /\ v = JS.get k params)
     \/ (v = VStr "true" /\ JS.get k params = VBool true))
  /\ (forall k,
        JS.truthy (JS.get k params) = false ->
        ~ In k ["api_key"; "exclude_children"; "per_page"; "current_page";
                "radius"] ->
        JS.lookup k q = None).
Proof.
  intros Hq.
  assert (Hmain : forall k v,
     JS.lookup k q = Some v ->
     In k ["api_key"; "exclude_children"; "per_page"; "current_page"]
     \/ (k = "radius" /\ v = JS.get "radius" params /\ v <> VUndefined)
     \/ (JS.truthy v = true /\ v = JS.get k params)
     \/ (v = VStr "true" /\ JS.get k params = VBool true)).
  { intros k v Hk.
    destruct (lookup_queryParams_origin apiKey params q k v Hq Hk)
      as [(s & Hin & He)|(n & Hn & Hin)].
    - destruct s as [|k0|k0|k0]; simpl in He; unfold ClientQuery.copy in He.
      + right; right; left.
        repeat (match goal with
                | H : context [if JS.truthy ?x then _ else _] |- _ =>
                    destruct (JS.truthy x) eqn:?
                end); try discriminate; injection He as <- <-; done.
      + right; left.
        assert (k0 = "radius") as ->.
        { simpl in Hin.
          repeat (destruct Hin as [Hin|Hin];
                  [try discriminate; by injection Hin|]).
          destruct Hin. }
        destruct (JS.is_defined _) eqn:Hd; [|done]. injection He as <- <-.
        split; [done|]. split; [done|]. intros Hu. by rewrite Hu in Hd.
      + right; right; left.
        destruct (JS.truthy _) eqn:Ht; [|done]. by injection He as <- <-.
      + right; right; right.
        destruct (JS.get k0 params) as [| |[]| | | |] eqn:Hg; try done.
        by injection He as <- <-.
    - left. simpl in Hin.
      destruct Hin as [Hin|[Hin|[Hin|[Hin|[]]]]]; injection Hin as <- _;
        simpl; tauto. }
  split; [exact Hmain|].
  intros k Hfalsy Hnot.
  destruct (JS.lookup k q) as [v|] eqn:Hk; [|done]. exfalso.
  destruct (Hmain k v Hk) as [Hb|[(-> & _)|[(Ht & ->)|(_ & Hg)]]].
  - apply Hnot. simpl in *. tauto.
  - apply Hnot. simpl. tauto.
  - congruence.
  - rewrite Hg in Hfalsy. done.
Qed.

(** Witness of X10: an empty query text is left out, a category is
    sent. *)
Lemma queryParams_sends_only_set_fields_witness :
  option_map (JS.lookup "query")
    (ClientQuery.queryParams "key"
       [("query", VStr EmptyString); ("category", VStr "event")])
  = Some None.
Proof.
  destruct (queryParams_sends_only_set_fields "key"
              [("query", VStr EmptyString); ("category", VStr "event")]
              _ eq_refl) as [_ Hout].
  refine (f_equal Some (Hout "query" eq_refl _)).
  simpl. intuition discriminate.
Defined.

(** X11.  When [per_page] is a number or falsy in the parameters
    (absent, [null], 0, the empty string, [false]) -- [SearchParams]
    declares it an optional number --, the query is built and carries the
    API key, a boolean [exclude_children], which is [false] only when
    the parameter is exactly [false], and a page size that is at most 50
    and never 0: [min(per_page, 50)] for a number other than 0, and 25
    for 0 and for every other falsy value.  So the search that the
    [get_topics] tool runs with [per_page: 0] asks for 25 results.  (On a
    truthy [per_page] that is not a number, [Math.min] converts its
    operand; the embedding has no query there and the theorem says
    nothing of it.) *)
Theorem queryParams_page_size (apiKey : string) (params : obj) :
  JS.is_number (JS.get "per_page" params)
  || negb (JS.truthy (JS.get "per_page" params)) = true ->
  (exists q b n,
     ClientQuery.queryParams apiKey params = Some q
     /\ JS.lookup "api_key" q = Some (VStr apiKey)
     /\ JS.lookup "exclude_children" q = Some (VBool b)
     /\ (b = false <-> JS.get "exclude_children" params = VBool false)
     /\ JS.lookup "per_page" q = Some (VNum n)
     /\ n <= 50 /\ n <> 0
     /\ (forall m, JS.get "per_page" params = VNum m ->
                   n = Z.min (if m =? 0 then 25 else m) 50)
     /\ (JS.truthy (JS.get "per_page" params) = false -> n = 25))
  /\ (forall category,
        exists q',
          ClientQuery.queryParams apiKey
            (ClientQuery.get_topics_params category) = Some q'
          /\ JS.lookup "per_page" q' = Some (VNum 25)).
Proof.
  intros Hdom.
  assert (Hbuild : forall params0 n0,
            Client.query_per_page params0 = Some n0 ->
            exists q0,
              ClientQuery.queryParams apiKey params0 = Some q0
              /\ forall k,
                   In k ["api_key"; "exclude_children"; "per_page"] ->
                   JS.lookup k q0
                   = JS.lookup k (ClientQuery.initial apiKey n0 params0)).
  { intros params0 n0 Hn0.
    assert (Hq0 : exists q0, ClientQuery.queryParams apiKey params0 = Some q0).
    { unfold ClientQuery.queryParams. rewrite Hn0. eauto. }
    destruct Hq0 as [q0 Hq0]. exists q0. split; [exact Hq0|].
    intros k Hk.
    apply (lookup_queryParams_initial apiKey params0 n0 q0 k Hn0 Hq0).
    simpl in Hk. destruct Hk as [<-|[<-|[<-|[]]]]; reflexivity. }
  split.
  - assert (Hn : exists n,
              Client.query_per_page params = Some n
              /\ n <= 50 /\ n <> 0
              /\ (forall m, JS.get "per_page" params = VNum m ->
                            n = Z.min (if m =? 0 then 25 else m) 50)
              /\ (JS.truthy (JS.get "per_page" params) = false -> n = 25)).
    { unfold Client.query_per_page, JS.or.
      destruct (JS.get "per_page" params) as [| |[]|m|s|l|o] eqn:Hp;
        simpl in Hdom |- *; try discriminate;
        try (exists 25; repeat split; (lia || done)).
      - destruct (m =? 0) eqn:Hm; simpl.
        + exists 25. repeat split; try lia; try done.
          intros m' [= <-]. by rewrite Hm.
        + apply Z.eqb_neq in Hm. exists (Z.min m 50).
          repeat split; try lia; try done.
          intros m' [= <-]. apply Z.eqb_neq in Hm. by rewrite Hm.
      - destruct (negb (String.eqb s EmptyString)); [discriminate|].
        exists 25. repeat split; (lia || done). }
    destruct Hn as (n & Hn & Hle & Hnz & Hnum & Hfalsy).
    destruct (Hbuild params n Hn) as (q & Hq & Hbase).
    exists q, (JS.is_not_false (JS.get "exclude_children" params)), n.
    split; [exact Hq|].
    split; [rewrite Hbase by (simpl; tauto); reflexivity|].
    split; [rewrite Hbase by (simpl; tauto); reflexivity|].
    split.
    { destruct (JS.get "exclude_children" params) as [| |[]| | | |];
        simpl; split; congruence. }
    split; [rewrite Hbase by (simpl; tauto); reflexivity|].
    done.
  - intros category.
    destruct (Hbuild (ClientQuery.get_topics_params category) 25 eq_refl)
      as (q' & Hq' & Hbase).
    exists q'. split; [exact Hq'|].
    rewrite Hbase by (simpl; tauto). reflexivity.
Qed.

(** Witness of X11: the facet search of [get_topics] for the category
    "event". *)
Lemma queryParams_page_size_witness :
  option_map (JS.lookup "per_page")
    (ClientQuery.queryParams "key"
       (ClientQuery.get_topics_params (VStr "event")))
  = Some (Some (VNum 25)).
Proof.
  destruct (queryParams_page_size "key"
              (ClientQuery.get_topics_params (VStr "event")) eq_refl)
    as [(q & b & n & Hq & _ & _ & _ & Hp & _ & _ & _ & Hfalsy) _].
  rewrite Hq. simpl. rewrite Hp, (Hfalsy eq_refl). reflexivity.
Defined.

(** X12.  Through [search_activities] a default location shadows the
    other location modes: when the caller gives no [near] and the default
    location is truthy, the effective parameters carry the default
    [near], so the upstream query never has [bbox] or [geo_points], even
    when the caller supplied them; it has the default [near] unless the
    caller gave a truthy [lat_lon], which is sent alone. *)
Theorem default_location_shadows_other_modes (apiKey : string)
    (args : obj) (prefs : Preferences) (q : obj) :
  NoDup (List.map fst args) ->
  JS.lookup "near" args = None ->
  JS.truthy (defaultLocation prefs) = true ->
  ClientQuery.queryParams apiKey (Server.searchParams args prefs) = Some q ->
  JS.lookup "bbox" q = None
  /\ JS.lookup "geo_points" q = None
  /\ (JS.truthy (JS.get "lat_lon" args) = false ->
      JS.lookup "near" q = Some (defaultLocation prefs))
  /\ (JS.truthy (JS.get "lat_lon" args) = true ->
      JS.lookup "lat_lon" q = Some (JS.get "lat_lon" args)
      /\ JS.lookup "near" q = None).
Proof.
  intros Hnd Hnear Hdef Hq.
  assert (Hn : JS.get "near" (Server.searchParams args prefs)
               = defaultLocation prefs).
  { unfold JS.get. rewrite lookup_searchParams, Hnear by done.
    unfold Server.computed_defaults. simpl. unfold JS.get. by rewrite Hnear. }
  assert (Hl : JS.get "lat_lon" (Server.searchParams args prefs)
               = JS.get "lat_lon" args).
  { unfold JS.get. rewrite lookup_searchParams by done.
    rewrite lookup_computed_defaults_other by reflexivity.
    by destruct (JS.lookup "lat_lon" args). }
  destruct (queryParams_location apiKey _ q Hq) as (H1 & H2 & H3 & H4).
  rewrite Hn, Hl, Hdef in *. rewrite H1, H2, H3, H4.
  destruct (JS.truthy (JS.get "lat_lon" args)); repeat split; done.
Qed.

(** Witness of X12: the caller searches a bounding box; the query goes
    out with the default place name and without the box. *)
Lemma default_location_shadows_other_modes_witness :
  option_map (JS.lookup "bbox")
    (ClientQuery.queryParams "key"
       (Server.searchParams [("bbox", VStr "37,-122;38,-121")]
          initial_preferences))
  = Some None
  /\ option_map (JS.lookup "near")
       (ClientQuery.queryParams "key"
          (Server.searchParams [("bbox", VStr "37,-122;38,-121")]
             initial_preferences))
     = Some (Some (VStr "Vancouver,BC,CA")).
Proof.
  assert (Hnd : NoDup (List.map fst [("bbox", VStr "37,-122;38,-121")])).
  { simpl. solve_NoDup_keys. }
  destruct (default_location_shadows_other_modes "key"
              [("bbox", VStr "37,-122;38,-121")] initial_preferences _
              Hnd eq_refl eq_refl eq_refl) as (Hb & _ & Hn & _).
  split; [exact (f_equal Some Hb)|exact (f_equal Some (Hn eq_refl))].
Defined.

(** ** The answer of the client *)

(** X13.  Once the HTTP request has succeeded, [searchActivities] never
    returns a falsy payload: a falsy body is the [InvalidRequest] error
    "Empty response from Active Network API".  A bare list is returned
    wrapped in an envelope whose [results] is the list and whose
    [total_results] is its length, which is the count the search handler
    then records; any other truthy body is returned unchanged. *)
Theorem settle_returns_truthy (per_page : Z) (current_page data : value)
    (out : ClientResponse.settled) :
  ClientResponse.settle per_page current_page data = Some out ->
  (forall v, out = ClientResponse.Returns v -> JS.truthy v = true)
  /\ (JS.truthy data = false <->
      out = ClientResponse.Throws
              {| code := InvalidRequest;
                 message := "Empty response from Active Network API" |})
  /\ (forall items,
        data = VArr items ->
        exists page v,
          current_page = VNum page
          /\ out = ClientResponse.Returns v
          /\ JS.member "results" v = VArr items
          /\ JS.member "items_per_page" v = VNum per_page
          /\ JS.member "start_index" v = VNum ((page - 1) * per_page)
          /\ JS.or (JS.member "total_results" v) (VNum 0)
             = VNum (Z.of_nat (length items)))
  /\ ((forall items, data <> VArr items) -> JS.truthy data = true ->
      out = ClientResponse.Returns data).
Proof.
  unfold ClientResponse.settle. intros Hout.
  destruct (JS.truthy data) eqn:Ht; simpl in Hout.
  - assert (Hcases :
      (exists items page,
         data = VArr items /\ current_page = VNum page
         /\ out = ClientResponse.Returns
                    (ClientResponse.envelope per_page
                       ((page - 1) * per_page) items))
      \/ ((forall items, data <> VArr items)
          /\ out = ClientResponse.Returns data)).
    { destruct data as [| |b|n|s|items|o];
        try (right; split; [done|congruence]).
      left. destruct current_page as [| | |page| | |]; try discriminate.
      exists items, page. split; [done|]. split; [done|]. congruence. }
    split; [|split; [|split]].
    + intros v ->.
      destruct Hcases as [(items & page & _ & _ & [= ->])|(_ & [= ->])];
        done.
    + split; [done|]. intros ->.
      destruct Hcases as [(items & page & _ & _ & [=])|(_ & [=])].
    + intros items ->.
      destruct Hcases as [(items' & page & [= <-] & -> & ->)|(Hnot & _)];
        [|by destruct (Hnot items)].
      exists page. eexists. split; [done|].
      split; [done|]. split; [done|]. split; [done|]. split; [done|].
      unfold JS.or. simpl.
      destruct (Z.of_nat (length items) =? 0) eqn:Hz; simpl; [|done].
      apply Z.eqb_eq in Hz. by rewrite Hz.
    + intros Hnot _.
      destruct Hcases as [(items & page & -> & _)|(_ & ->)]; [|done].
      by destruct (Hnot items).
  - injection Hout as <-. split; [done|]. split; [done|].
    split; [intros items ->; done|]. done.
Qed.

(** Witness of X13: a bare list of two activities on page 3 with a page
    size of 25. *)
Lemma settle_returns_truthy_witness :
  ClientResponse.settle 25 (VNum 3) (VArr [VStr "A"; VStr "B"])
  = Some (ClientResponse.Returns
            (ClientResponse.envelope 25 50 [VStr "A"; VStr "B"]))
  /\ JS.truthy (ClientResponse.envelope 25 50 [VStr "A"; VStr "B"]) = true.
Proof.
  split; [reflexivity|].
  destruct (settle_returns_truthy 25 (VNum 3) (VArr [VStr "A"; VStr "B"])
              _ eq_refl) as (Htruthy & _).
  exact (Htruthy _ eq_refl).
Defined.

(** ** The rate limiter *)

Section RateLimitFacts.
Import RateLimit.

Lemma waited_spacing st r : waited st r -> rateLimitDelay <= r.2 - lastRequest st.
Proof.
  unfold waited, waitTime, rateLimitDelay.
  destruct (r.1 - lastRequest st <? 500) eqn:Hlt.
  - apply Z.ltb_lt in Hlt. lia.
  - apply Z.ltb_ge in Hlt. lia.
Qed.

End RateLimitFacts.

(** X14.  The rate limiter spaces requests that pass it one after the
    other: when no timer fires early, the instants stored in
    [lastRequest] are at least 500 ms apart, starting from the stored
    one, and every request is counted.  The delay asked for is never
    negative, and it is 0 exactly when 500 ms have passed since the last
    request. *)
Theorem rate_limiter_spaces_requests (st : RateLimit.state)
    (requests : list (Z * Z)) :
  RateLimit.all_waited st requests ->
  RateLimit.spaced (RateLimit.lastRequest st) (List.map snd requests)
  /\ RateLimit.requestCount (RateLimit.run st requests)
     = RateLimit.requestCount st + Z.of_nat (length requests)
  /\ (forall now last, 0 <= RateLimit.waitTime now last)
  /\ (forall now last,
        RateLimit.waitTime now last = 0 <-> 500 <= now - last).
Proof.
  intros Hw. split; [|split; [|split]].
  - revert st Hw. induction requests as [|r rs IH]; intros st Hw; [done|].
    destruct Hw as [Hr Hrs]. simpl. split; [by apply waited_spacing|].
    apply (IH (RateLimit.dispatch st r) Hrs).
  - clear Hw. revert st. induction requests as [|r rs IH]; intros st.
    + simpl. lia.
    + simpl RateLimit.run. rewrite IH. simpl. lia.
  - intros now last. unfold RateLimit.waitTime, RateLimit.rateLimitDelay.
    destruct (now - last <? 500) eqn:Hlt; [apply Z.ltb_lt in Hlt|]; lia.
  - intros now last. unfold RateLimit.waitTime, RateLimit.rateLimitDelay.
    destruct (now - last <? 500) eqn:Hlt;
      [apply Z.ltb_lt in Hlt|apply Z.ltb_ge in Hlt]; lia.
Qed.

(** Witness of X14: three requests arriving at 1000, 1100 and 1600 ms and
    dispatched at 1000, 1500 and 2000 ms. *)
Lemma rate_limiter_spaces_requests_witness :
  RateLimit.spaced 0 [1000; 1500; 2000]
  /\ RateLimit.requestCount
       (RateLimit.run {| RateLimit.lastRequest := 0;
                         RateLimit.requestCount := 0 |}
          [(1000, 1000); (1100, 1500); (1600, 2000)]) = 3.
Proof.
  destruct (rate_limiter_spaces_requests
              {| RateLimit.lastRequest := 0; RateLimit.requestCount := 0 |}
              [(1000, 1000); (1100, 1500); (1600, 2000)])
    as (Hs & Hc & _).
  - cbn [RateLimit.all_waited].
    repeat split; try (vm_compute; discriminate).
  - split; [exact Hs|exact Hc].
Defined.

(** ** Uptime *)

(** X15.  [formatUptime] shows an uptime of [s] whole seconds by its
    largest units: seconds alone below one minute, minutes and seconds
    below one hour, hours, minutes and seconds below one day, and days,
    hours and minutes from one day on, where the seconds are dropped.
    The numbers shown are the exact decomposition of [s]: hours below
    24, minutes and seconds below 60.  A negative uptime is shown as a
    negative number of seconds. *)
Theorem formatUptime_decomposes (uptimeMs : Z) :
  let s := uptimeMs / 1000 in
  let d := s / 86400 in
  let h := (s / 3600) mod 24 in
  let m := (s / 60) mod 60 in
  let sec := s mod 60 in
  (0 <= uptimeMs ->
     s = d * 86400 + h * 3600 + m * 60 + sec
     /\ 0 <= h < 24 /\ 0 <= m < 60 /\ 0 <= sec < 60)
  /\ (0 <= uptimeMs < 60000 ->
      Uptime.formatUptime uptimeMs = Uptime.show s +:+ "s")
  /\ (60000 <= uptimeMs < 3600000 ->
      Uptime.formatUptime uptimeMs
      = Uptime.show m +:+ "m " +:+ Uptime.show sec +:+ "s"
      /\ d = 0 /\ h = 0)
  /\ (3600000 <= uptimeMs < 86400000 ->
      Uptime.formatUptime uptimeMs
      = Uptime.show h +:+ "h " +:+ Uptime.show m +:+ "m "
          +:+ Uptime.show sec +:+ "s"
      /\ d = 0)
  /\ (86400000 <= uptimeMs ->
      Uptime.formatUptime uptimeMs
      = Uptime.show d +:+ "d " +:+ Uptime.show h +:+ "h "
          +:+ Uptime.show m +:+ "m")
  /\ (uptimeMs < 0 ->
      Uptime.formatUptime uptimeMs = Uptime.show s +:+ "s").
Proof.
  intros s d h m sec.
  assert (Hmin : s / 60 / 60 = s / 3600)
    by (rewrite Z.div_div by lia; reflexivity).
  assert (Hday : s / 60 / 60 / 24 = s / 86400)
    by (rewrite !Z.div_div by lia; reflexivity).
  assert (Hrem : forall a b, 0 <= a -> 0 < b -> Z.rem a b = a mod b)
    by (intros a b Ha Hb; apply Z.rem_mod_nonneg; lia).
  unfold Uptime.formatUptime, Uptime.floor_div. fold s.
  rewrite Hday, Hmin. fold d.
  split; [|split; [|split; [|split; [|split]]]].
  - intros Hpos. assert (0 <= s) by (apply Z.div_pos; lia).
    subst d h m sec.
    pose proof (Z.div_mod s 60 ltac:(lia)) as E1.
    pose proof (Z.div_mod (s / 60) 60 ltac:(lia)) as E2.
    pose proof (Z.div_mod (s / 3600) 24 ltac:(lia)) as E3.
    pose proof (Z.mod_pos_bound s 60 ltac:(lia)).
    pose proof (Z.mod_pos_bound (s / 60) 60 ltac:(lia)).
    pose proof (Z.mod_pos_bound (s / 3600) 24 ltac:(lia)).
    rewrite Hmin in E2.
    replace (s / 3600 / 24) with (s / 86400) in E3
      by (rewrite Z.div_div by lia; reflexivity).
    lia.
  - intros Hr. assert (0 <= s < 60) by (subst s; split;
      [apply Z.div_pos|apply Z.div_lt_upper_bound]; lia).
    assert (d = 0) as -> by (subst d; apply Z.div_small; lia).
    replace (s / 3600) with 0 by (symmetry; apply Z.div_small; lia).
    replace (s / 60) with 0 by (symmetry; apply Z.div_small; lia).
    reflexivity.
  - intros Hr. assert (60 <= s < 3600) by (subst s; split;
      [apply Z.div_le_lower_bound|apply Z.div_lt_upper_bound]; lia).
    assert (Hd : d = 0) by (subst d; apply Z.div_small; lia).
    assert (Hh : s / 3600 = 0) by (apply Z.div_small; lia).
    assert (0 < s / 60) by (apply Z.div_str_pos; lia).
    assert (s / 60 < 60) by (apply Z.div_lt_upper_bound; lia).
    rewrite Hd, Hh. change (0 <? 0) with false. cbv iota.
    replace (0 <? s / 60) with true by (symmetry; apply Z.ltb_lt; lia).
    rewrite !Hrem by lia. subst m h sec. rewrite Hh.
    rewrite (Z.mod_small (s / 60) 60) by lia.
    split; [reflexivity|]. split; reflexivity.
  - intros Hr. assert (3600 <= s < 86400) by (subst s; split;
      [apply Z.div_le_lower_bound|apply Z.div_lt_upper_bound]; lia).
    assert (Hd : d = 0) by (subst d; apply Z.div_small; lia).
    assert (0 < s / 3600) by (apply Z.div_str_pos; lia).
    assert (s / 3600 < 24) by (apply Z.div_lt_upper_bound; lia).
    assert (0 <= s / 60) by (apply Z.div_pos; lia).
    rewrite Hd. change (0 <? 0) with false. cbv iota.
    replace (0 <? s / 3600) with true by (symmetry; apply Z.ltb_lt; lia).
    rewrite !Hrem by lia. subst h m sec.
    rewrite (Z.mod_small (s / 3600) 24) by lia.
    split; reflexivity.
  - intros Hr. assert (86400 <= s) by (subst s;
      apply Z.div_le_lower_bound; lia).
    assert (0 < d) by (subst d; apply Z.div_str_pos; lia).
    assert (0 <= s / 3600) by (apply Z.div_pos; lia).
    assert (0 <= s / 60) by (apply Z.div_pos; lia).
    replace (0 <? d) with true by (symmetry; apply Z.ltb_lt; lia).
    rewrite !Hrem by lia. reflexivity.
  - intros Hneg. assert (s < 0) by (subst s;
      apply Z.div_lt_upper_bound; lia).
    assert (d < 0) by (subst d; apply Z.div_lt_upper_bound; lia).
    assert (s / 3600 < 0) by (apply Z.div_lt_upper_bound; lia).
    assert (s / 60 < 0) by (apply Z.div_lt_upper_bound; lia).
    replace (0 <? d) with false by (symmetry; apply Z.ltb_ge; lia).
    replace (0 <? s / 3600) with false by (symmetry; apply Z.ltb_ge; lia).
    replace (0 <? s / 60) with false by (symmetry; apply Z.ltb_ge; lia).
    reflexivity.
Qed.

(** Witness of X15: 93 784 s are 1 day, 2 hours, 3 minutes and 4
    seconds. *)
Lemma formatUptime_decomposes_witness :
  Uptime.formatUptime 93784000 = "1d 2h 3m"
  /\ Uptime.formatUptime 7384000 = "2h 3m 4s".
Proof.
  destruct (formatUptime_decomposes 93784000) as (_ & _ & _ & _ & Hd & _).
  destruct (formatUptime_decomposes 7384000) as (_ & _ & _ & Hh & _).
  split; [exact (Hd ltac:(lia))|exact (proj1 (Hh ltac:(lia)))].
Defined.

(** ** What a search leaves alone *)

(** X16.  A run of [search_activities] never changes the preferences,
    and it adds or changes no cache entry under a key other than the
    derived one: an entry found afterwards under another key was there
    before, unchanged.  An entry under another key is either kept as it
    was or removed, and it is removed exactly when the run stored its
    result with the cache on, the map with the new entry put held more
    than 100 entries, and the entry was expired at the instant of the
    sweep.  The history is either untouched or extended by
    [addToSearchHistory] with the effective parameters, and its length
    never exceeds the larger of 100 and its length before. *)
Theorem search_activities_frame (clock : Clock)
    (upstream : obj -> upstream_result) (args : obj) (ctx : SearchContext) :
  preferences (Handler.search_activities clock upstream args ctx).2
  = preferences ctx
  /\ (forall k e,
        k <> Server.generateCacheKey
               (Server.searchParams args (preferences ctx)) ->
        cache (Handler.search_activities clock upstream args ctx).2 !! k
        = Some e ->
        cache ctx !! k = Some e)
  /\ (forall k e,
        k <> Server.generateCacheKey
               (Server.searchParams args (preferences ctx)) ->
        cache ctx !! k = Some e ->
        (cache (Handler.search_activities clock upstream args ctx).2 !! k
         = Some e
         \/ cache (Handler.search_activities clock upstream args ctx).2 !! k
            = None)
        /\ (cache (Handler.search_activities clock upstream args ctx).2 !! k
            = None
            <-> JS.is_not_false (JS.get "use_cache" args) = true
                /\ Server.expired (t_sweep clock) e = true
                /\ exists result,
                     (Handler.search_activities clock upstream args ctx).1
                     = SearchResponse result
                         (Server.searchParams args (preferences ctx))
                     /\ 100 < Z.of_nat
                                (size
                                   (<[Server.generateCacheKey
                                        (Server.searchParams args
                                           (preferences ctx))
                                      := {| CacheEntry.data := result;
                                            CacheEntry.timestamp :=
                                              t_store clock;
                                            CacheEntry.ttl :=
                                              Server.default_ttl |}]>
                                      (cache ctx)))))
  /\ (recentSearches (Handler.search_activities clock upstream args ctx).2
      = recentSearches ctx
      \/ exists count,
           recentSearches (Handler.search_activities clock upstream args ctx).2
           = Server.addToSearchHistory (t_history clock)
               (Server.searchParams args (preferences ctx)) count
               (recentSearches ctx))
  /\ (length (recentSearches
                (Handler.search_activities clock upstream args ctx).2)
      <= Nat.max 100 (length (recentSearches ctx)))%nat.
Proof.
  unfold Handler.search_activities.
  set (params := Server.searchParams args (preferences ctx)).
  set (key := Server.generateCacheKey params).
  assert (Hget : forall now k, k <> key ->
            (Server.getCachedResult now key (cache ctx)).2 !! k
            = cache ctx !! k).
  { intros now k Hne. unfold Server.getCachedResult.
    destruct (cache ctx !! key) as [old|]; [|done].
    destruct (Server.expired now old); simpl; [|done].
    by rewrite lookup_delete_ne. }
  assert (Hins : forall now (x : CacheEntry.t),
            <[key := x]> (Server.getCachedResult now key (cache ctx)).2
            = <[key := x]> (cache ctx)).
  { intros now x. unfold Server.getCachedResult.
    destruct (cache ctx !! key) as [old|]; [|done].
    destruct (Server.expired now old); simpl; [|done].
    apply insert_delete_eq. }
  assert (Hlen : forall now count,
            (length (Server.addToSearchHistory now params count
                       (recentSearches ctx))
             <= Nat.max 100 (length (recentSearches ctx)))%nat).
  { intros now count. rewrite addToSearchHistory_slice, length_slice_last.
    lia. }
  assert (Hkept : forall (r : response) (c' : gmap string CacheEntry.t),
            (forall result, r <> SearchResponse result params) ->
            (forall k, k <> key -> c' !! k = cache ctx !! k) ->
            (forall k e, k <> key -> c' !! k = Some e ->
                         cache ctx !! k = Some e)
            /\ (forall k e, k <> key -> cache ctx !! k = Some e ->
                  (c' !! k = Some e \/ c' !! k = None)
                  /\ (c' !! k = None
                      <-> JS.is_not_false (JS.get "use_cache" args) = true
                          /\ Server.expired (t_sweep clock) e = true
                          /\ exists result,
                               r = SearchResponse result params
                               /\ 100 < Z.of_nat
                                    (size
                                       (<[key
                                          := {| CacheEntry.data := result;
                                                CacheEntry.timestamp :=
                                                  t_store clock;
                                                CacheEntry.ttl :=
                                                  Server.default_ttl |}]>
                                          (cache ctx)))))).
  { intros r c' Hr Hsame. split.
    - intros k e Hne Hk. by rewrite <- Hsame.
    - intros k e Hne Hk. rewrite Hsame by done. split; [by left|].
      rewrite Hk. split; [done|].
      intros (_ & _ & result & Hres & _). by destruct (Hr result). }
  destruct (JS.is_not_false (JS.get "use_cache" args)) eqn:Huse; simpl.
  - destruct (Server.getCachedResult (t_lookup clock) key (cache ctx))
      as [cached c1] eqn:Hc.
    specialize (Hget (t_lookup clock)). specialize (Hins (t_lookup clock)).
    rewrite Hc in Hget, Hins. simpl in Hget, Hins.
    destruct (JS.truthy cached); simpl.
    + split; [done|].
      destruct (Hkept (CachedResponse cached) c1) as [H2 H3];
        [done|exact Hget|].
      split; [exact H2|]. split; [exact H3|]. split; [by left|lia].
    + destruct (upstream params) as [result|err]; simpl.
      * split; [done|].
        pose proof (fun k e =>
                      lookup_setCachedResult (t_store clock) (t_sweep clock)
                        key result None c1 k e) as Hiff.
        cbv iota in Hiff. rewrite Hins in Hiff.
        split; [|split; [|split; [right; eauto|apply Hlen]]].
        -- intros k e Hne Hk. apply Hiff in Hk as [Hk _].
           by rewrite lookup_insert_ne in Hk.
        -- intros k e Hne Hk.
           assert (Hput : <[key := {| CacheEntry.data := result;
                                      CacheEntry.timestamp := t_store clock;
                                      CacheEntry.ttl := Server.default_ttl |}]>
                            (cache ctx) !! k = Some e).
           { by rewrite lookup_insert_ne. }
           destruct (Server.setCachedResult (t_store clock) (t_sweep clock)
                       key result None c1 !! k) as [e'|] eqn:Hk'.
           ++ assert (e' = e) as ->.
              { apply Hiff in Hk' as [Hk' _]. congruence. }
              split; [by left|]. split; [done|].
              intros (_ & Hexp & result' & Hres & Hsz).
              injection Hres as <-.
              apply Hiff in Hk' as [_ Hfresh]. specialize (Hfresh Hsz).
              congruence.
           ++ split; [by right|]. split; [|done]. intros _.
              split; [done|].
              destruct (Server.expired (t_sweep clock) e) eqn:Hexp.
              ** split; [done|]. exists result. split; [done|].
                 destruct (Z_lt_dec 100
                             (Z.of_nat
                                (size
                                   (<[key
                                      := {| CacheEntry.data := result;
                                            CacheEntry.timestamp :=
                                              t_store clock;
                                            CacheEntry.ttl :=
                                              Server.default_ttl |}]>
                                      (cache ctx))))) as [Hsz|Hsz]; [done|].
                 exfalso.
                 assert (Hin : Server.setCachedResult (t_store clock)
                                 (t_sweep clock) key result None c1 !! k
                               = Some e).
                 { apply Hiff. split; [exact Hput|]. intros Hgt. done. }
                 congruence.
              ** exfalso.
                 assert (Hin : Server.setCachedResult (t_store clock)
                                 (t_sweep clock) key result None c1 !! k
                               = Some e).
                 { apply Hiff. split; [exact Hput|]. done. }
                 congruence.
      * split; [done|].
        destruct (Hkept (SearchFailed ("Search failed: " +:+ err)) c1)
          as [H2 H3]; [done|exact Hget|].
        split; [exact H2|]. split; [exact H3|]. split; [by left|lia].
  - assert (Hoff : forall (r : response),
              (forall k e, k <> key -> cache ctx !! k = Some e ->
                 (cache ctx !! k = Some e \/ cache ctx !! k = None)
                 /\ (cache ctx !! k = None
                     <-> false = true
                         /\ Server.expired (t_sweep clock) e = true
                         /\ exists result,
                              r = SearchResponse result params
                              /\ 100 < Z.of_nat
                                   (size
                                      (<[key
                                         := {| CacheEntry.data := result;
                                               CacheEntry.timestamp :=
                                                 t_store clock;
                                               CacheEntry.ttl :=
                                                 Server.default_ttl |}]>
                                         (cache ctx)))))).
    { intros r k e Hne Hk. split; [by left|]. rewrite Hk.
      split; [done|]. intros [Hf _]. done. }
    destruct (upstream params) as [result|err]; simpl.
    + split; [done|]. split; [done|]. split; [apply Hoff|].
      split; [right; eauto|apply Hlen].
    + split; [done|]. split; [done|]. split; [apply Hoff|].
      split; [by left|lia].
Qed.

(** Witness of X16: a search on the cache of 100 entries, at time 500.
    The put takes the map to 101 entries and the sweep runs: the entry
    under "4", expired, is removed, the entry under "5" is kept. *)
Lemma search_activities_frame_witness :
  cache (Handler.search_activities (clock_at 500) upstream_ok yoga_args
           (with_cache full_cache empty_context)).2 !! "4" = None
  /\ cache (Handler.search_activities (clock_at 500) upstream_ok yoga_args
              (with_cache full_cache empty_context)).2 !! "5"
     = Some (stored_entry 5).
Proof.
  destruct (search_activities_frame (clock_at 500) upstream_ok yoga_args
              (with_cache full_cache empty_context))
    as (_ & _ & Hother & _).
  assert (H4 : cache (with_cache full_cache empty_context) !! "4"
               = Some (stored_entry 4)) by (vm_compute; reflexivity).
  assert (H5 : cache (with_cache full_cache empty_context) !! "5"
               = Some (stored_entry 5)) by (vm_compute; reflexivity).
  assert (Hne4 : "4" <> Server.generateCacheKey
                          (Server.searchParams yoga_args
                             (preferences
                                (with_cache full_cache empty_context))))
    by (vm_compute; discriminate).
  assert (Hne5 : "5" <> Server.generateCacheKey
                          (Server.searchParams yoga_args
                             (preferences
                                (with_cache full_cache empty_context))))
    by (vm_compute; discriminate).
  split.
  - refine (proj2 (proj2 (Hother "4" (stored_entry 4) Hne4 H4)) _).
    split; [reflexivity|]. split; [reflexivity|].
    exists yoga_payload. split; [vm_compute; reflexivity|].
    vm_compute. reflexivity.
  - destruct (Hother "5" (stored_entry 5) Hne5 H5) as [[Hk|Hk] Hiff];
      [exact Hk|].
    apply Hiff in Hk as (_ & Hexp & _). vm_compute in Hexp. discriminate.
Defined.

(** ** Analytics counters *)

Section WindowFacts.

Lemma length_filter_le {A : Type} (f g : A -> bool) (l : list A) :
  (forall x, f x = true -> g x = true) ->
  (length (List.filter f l) <= length (List.filter g l))%nat.
Proof.
  intros Hfg. induction l as [|x l IH]; simpl; [done|].
  destruct (f x) eqn:Hf.
  - rewrite (Hfg x Hf). simpl. lia.
  - destruct (g x); simpl; lia.
Qed.

End WindowFacts.

(** X17.  The counters of the analytics are ordered: the searches of the
    last 24 hours are among those of the last 7 days, which are among
    all retained searches, and [totalSearches] is the length of the
    history.  A record whose time stamp is in the future counts in both
    windows. *)
Theorem analytics_windows_nested (now : Z) (ctx : SearchContext)
    (a : Analytics.t) :
  Analytics.calculateSearchAnalytics now ctx = Some a ->
  (Analytics.searchesLast24h a <= Analytics.searchesLast7d a)%nat
  /\ (Analytics.searchesLast7d a <= Analytics.totalSearches a)%nat
  /\ Analytics.totalSearches a = length (recentSearches ctx)
  /\ ((forall s, In s (recentSearches ctx) -> now <= SearchRecord.timestamp s)
      -> Analytics.searchesLast24h a = length (recentSearches ctx)).
Proof.
  unfold Analytics.calculateSearchAnalytics.
  destruct (Analytics.frequencies _ _) as [cf|]; [|done].
  destruct (Analytics.frequencies _ _) as [lf|]; [|done].
  intros [= <-]. simpl. split; [|split; [|split; [done|]]].
  - apply length_filter_le. intros s. rewrite !Z.ltb_lt.
    unfold Analytics.day_ms. lia.
  - apply List.filter_length_le.
  - intros Hfuture. f_equal.
    induction (recentSearches ctx) as [|s l IH]; simpl; [done|].
    replace (now - SearchRecord.timestamp s <? Analytics.day_ms) with true.
    + simpl. f_equal. apply IH. intros s' Hs'. apply Hfuture. by right.
    + symmetry. apply Z.ltb_lt. unfold Analytics.day_ms.
      specialize (Hfuture s (or_introl eq_refl)). lia.
Qed.

(** Witness of X17: three searches, two hours, two days and ten days
    old. *)
Lemma analytics_windows_nested_witness :
  match Analytics.calculateSearchAnalytics 1000000000
          (history_context
             [ pushed (1000000000 - 10 * Analytics.day_ms) yoga_args (VNum 1);
               pushed (1000000000 - 2 * Analytics.day_ms) yoga_args (VNum 1);
               pushed (1000000000 - 7200000) yoga_args (VNum 1) ]) with
  | Some a =>
      (Analytics.searchesLast24h a <= Analytics.searchesLast7d a)%nat
      /\ (Analytics.searchesLast7d a <= Analytics.totalSearches a)%nat
      /\ Analytics.totalSearches a = 3%nat
  | None => False
  end.
Proof.
  destruct (Analytics.calculateSearchAnalytics _ _) as [a|] eqn:Ha.
  - destruct (analytics_windows_nested _ _ a Ha) as (H1 & H2 & H3 & _).
    split; [exact H1|]. split; [exact H2|]. rewrite H3. reflexivity.
  - vm_compute in Ha. discriminate Ha.
Defined.

(** ** Every field is part of the cache key *)

Section KeyFacts.
Import Server.

Lemma string_length_app (a b : string) :
  String.length (a +:+ b) = (String.length a + String.length b)%nat.
Proof. induction a as [|c a IH]; simpl; [done|]. by rewrite IH. Qed.

Lemma length_join_snoc (sep x : string) (l : list string) :
  String.length (JS.join sep (l ++ [x]))
  = (String.length (JS.join sep l)
     + (match l with [] => 0 | _ => String.length sep end)
     + String.length x)%nat.
Proof.
  unfold JS.join. induction l as [|y l IH]; [simpl; lia|].
  destruct l as [|z l].
  - simpl. rewrite !string_length_app. lia.
  - change (String.concat sep ((y :: z :: l) ++ [x]))
      with (y +:+ sep +:+ String.concat sep ((z :: l) ++ [x])).
    change (String.concat sep (y :: z :: l))
      with (y +:+ sep +:+ String.concat sep (z :: l)).
    rewrite !string_length_app, IH. lia.
Qed.

Lemma stringify_defined (v : value) :
  v <> VUndefined -> exists t, JS.stringify v = Some t.
Proof. destruct v as [| |[]| | | |]; simpl; eauto. done. Qed.

Lemma stringify_object_members (o : obj) :
  JS.stringify_object o = "{" +:+ JS.join "," (member_texts o) +:+ "}".
Proof. reflexivity. Qed.

Lemma keep_some_app {A : Type} (l1 l2 : list (option A)) :
  JS.keep_some (l1 ++ l2) = JS.keep_some l1 ++ JS.keep_some l2.
Proof. unfold JS.keep_some. apply flat_map_app. Qed.

Lemma member_texts_snoc (o : obj) k v t :
  JS.stringify v = Some t ->
  member_texts (o ++ [(k, v)])
  = member_texts o ++ [JS.quote k +:+ ":" +:+ t].
Proof.
  intros Ht. unfold member_texts. rewrite List.map_app, keep_some_app.
  f_equal. simpl. unfold member_text. simpl. by rewrite Ht.
Qed.

(** One more member that is not [undefined] makes the text longer. *)
Lemma length_stringify_object_snoc (o : obj) (k : string) (v : value) :
  v <> VUndefined ->
  (String.length (JS.stringify_object o)
   < String.length (JS.stringify_object (o ++ [(k, v)])))%nat.
Proof.
  intros Hv. destruct (stringify_defined v Hv) as [t Ht].
  rewrite !stringify_object_members, (member_texts_snoc o k v t Ht).
  rewrite !string_length_app, length_join_snoc, !string_length_app.
  unfold JS.quote. simpl. lia.
Qed.

(** A new member with a plain name goes to the end of the effective
    parameters. *)
Lemma searchParams_snoc (args : obj) (prefs : Preferences) k v :
  JS.lookup k args = None -> is_computed k = false ->
  JS.array_index k = None ->
  searchParams (args ++ [(k, v)]) prefs = searchParams args prefs ++ [(k, v)].
Proof.
  intros Hk Hc Hi. unfold searchParams.
  rewrite (computed_defaults_ext (args ++ [(k, v)]) args prefs).
  - unfold JS.spread. rewrite fold_left_app. simpl.
    fold (JS.spread args (computed_defaults args prefs)).
    unfold JS.set, JS.has. rewrite lookup_spread.
    assert (Hr : JS.lookup k (rev args) = None).
    { apply lookup_None_keys. rewrite List.map_rev.
      apply lookup_None_keys in Hk. intros Hin. apply Hk.
      apply list_elem_of_In. apply list_elem_of_In in Hin.
      by apply in_rev. }
    rewrite Hr, lookup_computed_defaults_other by done. by rewrite Hi.
  - intros k' Hk'. rewrite obj_lookup_app. simpl.
    destruct (JS.lookup k' args); [done|].
    destruct (String.eqb_spec k' k) as [->|]; [congruence|done].
Qed.

End KeyFacts.

(** X18.  Every field of the effective parameters is part of the cache
    key: adding to the arguments a field they did not have, of a plain
    name and with a value other than [undefined], always changes the key,
    even when the upstream query ignores the field.  In particular a
    search with [use_cache: true] and the same search without the flag
    do not share a cache entry. *)
Theorem extra_field_changes_cache_key (args : obj) (prefs : Preferences)
    (k : string) (v : value) :
  JS.lookup k args = None ->
  is_computed k = false ->
  JS.array_index k = None ->
  v <> VUndefined ->
  Server.generateCacheKey (Server.searchParams (args ++ [(k, v)]) prefs)
  <> Server.generateCacheKey (Server.searchParams args prefs).
Proof.
  intros Hk Hc Hi Hv Heq.
  rewrite searchParams_snoc in Heq by done.
  pose proof (length_stringify_object_snoc
                (Server.searchParams args prefs) k v Hv) as Hlen.
  unfold Server.generateCacheKey in Heq. rewrite Heq in Hlen. lia.
Qed.

(** Witness of X18: the yoga search with and without [use_cache: true]. *)
Lemma extra_field_changes_cache_key_witness :
  Server.generateCacheKey
    (Server.searchParams (yoga_args ++ [("use_cache", VBool true)])
       initial_preferences)
  <> yoga_key.
Proof.
  apply (extra_field_changes_cache_key yoga_args initial_preferences
           "use_cache" (VBool true)); try reflexivity. discriminate.
Defined.

(** ** What the history records *)

Section CopyFacts.
Implicit Types (o b src : obj) (k : string).

Lemma plain_object_set k v o :
  plain_object o -> JS.array_index k = None -> plain_object (JS.set k v o).
Proof.
  intros [Hnd Hpl] Hk. unfold JS.set.
  destruct (JS.has k o) eqn:Hhas.
  - unfold plain_object. by rewrite keys_replace.
  - rewrite Hk. unfold plain_object. rewrite List.map_app. simpl. split.
    + apply NoDup_app. split; [done|]. split; [|apply NoDup_singleton].
      intros x Hx Hx'. apply list_elem_of_singleton in Hx'. subst x.
      apply (lookup_None_keys k o); [|done].
      unfold JS.has in Hhas. by destruct (JS.lookup k o).
    + apply Forall_app. split; [done|]. by constructor.
Qed.

Lemma plain_object_spread src b :
  plain_object src -> plain_object b -> plain_object (JS.spread src b).
Proof.
  intros [_ Hsrc]. unfold JS.spread. revert b.
  induction src as [|[k v] src IH]; intros b Hb; [done|]. simpl in *.
  apply Forall_cons in Hsrc as [Hk Hsrc].
  apply IH; [done|]. by apply plain_object_set.
Qed.

(** [{ ...o }] is [o] again. *)
Lemma spread_copy o : plain_object o -> JS.spread o [] = o.
Proof.
  induction o as [|[k v] o IH] using rev_ind; intros [Hnd Hpl]; [done|].
  rewrite List.map_app in Hnd, Hpl. simpl in Hnd, Hpl.
  apply NoDup_app in Hnd as (Hnd & Hk & _).
  apply Forall_app in Hpl as [Hpl Hk'].
  apply Forall_cons in Hk' as [Hk' _].
  unfold JS.spread. rewrite fold_left_app. simpl.
  fold (JS.spread o []). rewrite IH by done.
  unfold JS.set, JS.has.
  assert (Hnone : JS.lookup k o = None).
  { apply lookup_None_keys. intros Hin. apply (Hk k Hin). by left. }
  by rewrite Hnone, Hk'.
Qed.

Lemma plain_object_computed_defaults args prefs :
  plain_object (Server.computed_defaults args prefs).
Proof.
  split; [apply NoDup_keys_computed_defaults|].
  simpl. repeat constructor.
Qed.

End CopyFacts.

(** X19.  The history records what was searched: when the caller's
    arguments are an object with plain names, the record pushed by a
    successful search that went upstream holds a copy equal to the
    effective parameters, the ones the cache key and the upstream call
    were made from, with the [total_results] of the answer, or 0 when the
    answer has none, as its count. *)
Theorem history_records_effective_parameters (clock : Clock)
    (upstream : obj -> upstream_result) (args : obj) (ctx : SearchContext)
    (result : value) :
  plain_object args ->
  (Handler.search_activities clock upstream args ctx).1
  = SearchResponse result (Server.searchParams args (preferences ctx)) ->
  last (recentSearches (Handler.search_activities clock upstream args ctx).2)
  = Some {| SearchRecord.query :=
              Server.searchParams args (preferences ctx);
            SearchRecord.timestamp := t_history clock;
            SearchRecord.resultCount :=
              JS.or (JS.member "total_results" result) (VNum 0) |}.
Proof.
  intros Hplain Hresp.
  assert (Hcopy : JS.spread (Server.searchParams args (preferences ctx)) []
                  = Server.searchParams args (preferences ctx)).
  { apply spread_copy. unfold Server.searchParams.
    apply plain_object_spread; [done|].
    apply plain_object_computed_defaults. }
  unfold Handler.search_activities in *.
  destruct (JS.is_not_false (JS.get "use_cache" args)); simpl in *.
  - destruct (Server.getCachedResult _ _ _) as [cached c1].
    destruct (JS.truthy cached); [discriminate|].
    destruct (upstream _) as [r|e]; [|discriminate].
    simpl in *. injection Hresp as ->.
    rewrite addToSearchHistory_snoc, last_snoc. unfold pushed.
    by rewrite Hcopy.
  - destruct (upstream _) as [r|e]; [|discriminate].
    simpl in *. injection Hresp as ->.
    rewrite addToSearchHistory_snoc, last_snoc. unfold pushed.
    by rewrite Hcopy.
Qed.

(** Witness of X19: the yoga search on an empty context. *)
Lemma history_records_effective_parameters_witness :
  last (recentSearches
          (Handler.search_activities (clock_at 7) upstream_ok yoga_args
             empty_context).2)
  = Some {| SearchRecord.query :=
              Server.searchParams yoga_args initial_preferences;
            SearchRecord.timestamp := 7;
            SearchRecord.resultCount := VNum 2 |}.
Proof.
  apply (history_records_effective_parameters (clock_at 7) upstream_ok
           yoga_args empty_context yoga_payload).
  - split; [simpl; solve_NoDup_keys|]. simpl. repeat constructor.
  - reflexivity.
Defined.
